(** * Polling waiters and REST base client of the Designate tempest plugin

    A shallow embedding of
    - [designate_tempest_plugin/common/waiters.py]
      ([wait_for_zone_404], [wait_for_zone_status]) and
    - [designate_tempest_plugin/services/dns/json/base.py]
      ([handle_errors], [DnsClientBase]),
    followed by the properties the specification states about them.

    Python code runs in the monad [M]: a computation takes the state of the
    world (wall clock, chronological trace of the observable actions, log)
    and ends with a value, with a raised exception, or without an answer
    when the loop budget of the model is used up.  Everything the code does
    not own (the remote service, the scheduler, the REST library, the JSON
    codec, the test runner) is an oracle read from an environment record. *)

From Stdlib Require Import ZArith Lia.
From stdpp Require Import base option list strings gmap pretty.

Set Warnings "-register-all".

Local Open Scope string_scope.
Local Open Scope list_scope.
Local Open Scope Z_scope.

(** ** Exceptions *)

(** The classes of [tempest.lib.exceptions] that the code names or that
    the REST layer raises, together with the Python built-ins involved:
    the root [BaseException], the three built-ins that derive from it
    without being an [Exception], and the errors the code can meet. *)
Inductive exn_class :=
  | BaseException | KeyboardInterrupt | SystemExit | GeneratorExit
  | Exception | AssertionError | LookupError | KeyError | ValueError
  | TypeError
  | TempestException | RestClientException
  | OtherRestClientException | ServerRestClientException
  | ClientRestClientException
  | InvalidHttpSuccessCode | UnexpectedResponseCode | TimeoutException
  | BadRequest | Unauthorized | Forbidden | NotFound | Conflict | Gone
  | PreconditionFailed | OverLimit | InvalidContentType | UnprocessableEntity
  | ServerFault.

#[global] Instance exn_class_eq_dec : EqDecision exn_class.
Proof. solve_decision. Defined.

(** Direct base classes; none for the root.  [RestClientException] has
    two: it is declared over [TempestException] and the failure exception
    of the test framework, which is [AssertionError]. *)
Definition bases (c : exn_class) : list exn_class :=
  match c with
  | BaseException => []
  | KeyboardInterrupt | SystemExit | GeneratorExit | Exception =>
      [BaseException]
  | AssertionError | LookupError | ValueError | TypeError
  | TempestException => [Exception]
  | KeyError => [LookupError]
  | RestClientException => [TempestException; AssertionError]
  | OtherRestClientException | ServerRestClientException
  | ClientRestClientException => [RestClientException]
  | InvalidHttpSuccessCode | UnexpectedResponseCode | TimeoutException =>
      [OtherRestClientException]
  | BadRequest | Unauthorized | Forbidden | NotFound | Conflict | Gone
  | PreconditionFailed | OverLimit | InvalidContentType
  | UnprocessableEntity => [ClientRestClientException]
  | ServerFault => [ServerRestClientException]
  end.

Fixpoint issubclass_upto (depth : nat) (c d : exn_class) : bool :=
  if decide (c = d) then true
  else match depth with
       | O => false
       | S depth' => existsb (fun b => issubclass_upto depth' b d) (bases c)
       end.

(** No class is more than five steps below the root. *)
Definition issubclass (c d : exn_class) : bool := issubclass_upto 5 c d.

Definition class_name (c : exn_class) : string :=
  match c with
  | BaseException => "BaseException"
  | KeyboardInterrupt => "KeyboardInterrupt"
  | SystemExit => "SystemExit" | GeneratorExit => "GeneratorExit"
  | AssertionError => "AssertionError"
  | Exception => "Exception" | LookupError => "LookupError"
  | KeyError => "KeyError" | ValueError => "ValueError"
  | TypeError => "TypeError"
  | TempestException => "tempest.lib.exceptions.TempestException"
  | RestClientException => "tempest.lib.exceptions.RestClientException"
  | OtherRestClientException =>
      "tempest.lib.exceptions.OtherRestClientException"
  | ServerRestClientException =>
      "tempest.lib.exceptions.ServerRestClientException"
  | ClientRestClientException =>
      "tempest.lib.exceptions.ClientRestClientException"
  | InvalidHttpSuccessCode => "tempest.lib.exceptions.InvalidHttpSuccessCode"
  | UnexpectedResponseCode => "tempest.lib.exceptions.UnexpectedResponseCode"
  | TimeoutException => "tempest.lib.exceptions.TimeoutException"
  | BadRequest => "tempest.lib.exceptions.BadRequest"
  | Unauthorized => "tempest.lib.exceptions.Unauthorized"
  | Forbidden => "tempest.lib.exceptions.Forbidden"
  | NotFound => "tempest.lib.exceptions.NotFound"
  | Conflict => "tempest.lib.exceptions.Conflict"
  | Gone => "tempest.lib.exceptions.Gone"
  | PreconditionFailed => "tempest.lib.exceptions.PreconditionFailed"
  | OverLimit => "tempest.lib.exceptions.OverLimit"
  | InvalidContentType => "tempest.lib.exceptions.InvalidContentType"
  | UnprocessableEntity => "tempest.lib.exceptions.UnprocessableEntity"
  | ServerFault => "tempest.lib.exceptions.ServerFault"
  end.

(** An exception object: its class and its message. *)
Record exn := Exn { exn_class_of : exn_class; exn_msg : string }.

#[global] Instance exn_eq_dec : EqDecision exn.
Proof. solve_decision. Defined.

Definition isinstance (e : exn) (c : exn_class) : bool :=
  issubclass (exn_class_of e) c.

(** ** Values *)

(** Scalar members of a deserialized JSON object. *)
Inductive jvalue :=
  | JNull
  | JBool (b : bool)
  | JNum (n : Z)
  | JStr (s : string).

#[global] Instance jvalue_eq_dec : EqDecision jvalue.
Proof. solve_decision. Defined.

(** A resource snapshot: the dict that [deserialize] yields. *)
Abbreviation zone := (gmap string jvalue).

(** [str(v)], as the [%s] conversion renders a member. *)
Definition py_str (v : jvalue) : string :=
  match v with
  | JNull => "None"
  | JBool true => "True"
  | JBool false => "False"
  | JNum n => pretty n
  | JStr s => s
  end.

(** Python values that cross a call boundary in the modelled code. *)
Inductive value :=
  | VNone
  | VStr (s : string)
  | VInt (n : Z)
  | VClass (c : exn_class)
  | VTuple (vs : list value)
  | VDict (d : zone).

(** ** The world and the monad *)

Inductive event :=
  | EvTime (t : Z)                                (* time.time() read t ms *)
  | EvSleep (secs : Z)                            (* time.sleep(secs) *)
  | EvShow (zone_id : string) (reply : exn + zone) (* client.show_zone *)
  | EvRequest (method uri : string) (body : option string)
              (reply : exn + Z * string)          (* one call of the REST layer *).

Record World := mkWorld {
  clock : Z;            (* wall clock, milliseconds *)
  shows : nat;          (* show_zone calls issued so far *)
  sleeps : nat;         (* sleeps performed so far *)
  requests : nat;       (* calls of the REST layer so far *)
  trace : list event;   (* observable actions, oldest first *)
  logs : list string    (* lines given to LOG, oldest first *)
}.

Inductive res (A : Type) :=
  | Val (a : A)
  | Raise (e : exn)
  | OutOfFuel.
Arguments Val {A} a.
Arguments Raise {A} e.
Arguments OutOfFuel {A}.

Definition M (A : Type) : Type := World -> res A * World.

Definition ret {A} (a : A) : M A := fun w => (Val a, w).
Definition raise {A} (e : exn) : M A := fun w => (Raise e, w).
Definition diverge {A} : M A := fun w => (OutOfFuel, w).

Definition bind {A B} (m : M A) (k : A -> M B) : M B :=
  fun w =>
    match m w with
    | (Val a, w') => k a w'
    | (Raise e, w') => (Raise e, w')
    | (OutOfFuel, w') => (OutOfFuel, w')
    end.

Notation "x <- m ;; k" := (bind m (fun x => k))
  (at level 100, m at next level, right associativity).
Notation "m ;;; k" := (bind m (fun _ => k))
  (at level 100, right associativity).

(** [try: m except cls as e: handler e]: an exception raised by [m] that
    is an instance of [cls] is handed to the handler, any other one goes
    on to the caller. *)
Definition try_except {A} (m : M A) (cls : exn_class) (handler : exn -> M A)
  : M A :=
  fun w =>
    match m w with
    | (Raise e, w') =>
        if isinstance e cls then handler e w' else (Raise e, w')
    | other => other
    end.

(** ** The environment of a waiter *)

Record Client := mkClient {
  (** [client.build_interval], [client.build_timeout]: whole seconds. *)
  build_interval : Z;
  build_timeout : Z;
  (** The service behind [client.show_zone]: for the n-th call, of the
      given id, issued at clock t, how long the call takes (ms) and what
      it gives: a raised exception or the deserialized zone. *)
  show_reply : nat -> string -> Z -> N * (exn + zone);
  (** By how many ms the n-th [time.sleep] oversleeps. *)
  oversleep : nat -> N;
  (** [misc_utils.find_test_caller()]: [None] when no test is on the stack. *)
  find_test_caller : option string
}.

Definition log_line (line : string) : M unit :=
  fun w => (Val tt, mkWorld (clock w) (shows w) (sleeps w) (requests w)
                            (trace w) (logs w ++ [line])).

(** [time.time()], in milliseconds. *)
Definition time_time : M Z :=
  fun w => (Val (clock w), mkWorld (clock w) (shows w) (sleeps w) (requests w)
                                   (trace w ++ [EvTime (clock w)]) (logs w)).

(** [int(t)] of a time in seconds held in milliseconds: truncation. *)
Definition py_int (ms : Z) : Z := Z.quot ms 1000.

(** [time.sleep(secs)]: a negative length is a [ValueError]; otherwise
    the clock moves on by at least [secs]. *)
Definition time_sleep (c : Client) (secs : Z) : M unit :=
  fun w =>
    if secs <? 0
    then (Raise (Exn ValueError "sleep length must be non-negative"), w)
    else (Val tt,
          mkWorld (clock w + secs * 1000 + Z.of_N (oversleep c (sleeps w)))
                  (shows w) (S (sleeps w)) (requests w)
                  (trace w ++ [EvSleep secs]) (logs w)).

(** [client.show_zone(zone_id)], the response half of the pair dropped
    (the waiters bind it to [_]). *)
Definition show_zone (c : Client) (zone_id : string) : M zone :=
  fun w =>
    let '(took, reply) := show_reply c (shows w) zone_id (clock w) in
    let w' := mkWorld (clock w + Z.of_N took) (S (shows w)) (sleeps w)
                      (requests w)
                      (trace w ++ [EvShow zone_id reply]) (logs w) in
    match reply with
    | inl e => (Raise e, w')
    | inr z => (Val z, w')
    end.

(** [d[key]] *)
Definition getitem (d : zone) (key : string) : M jvalue :=
  match d !! key with
  | Some v => ret v
  | None => raise (Exn KeyError ("'" +:+ key +:+ "'"))
  end.

(** Truth value of what [find_test_caller] returned. *)
Definition truthy (caller : option string) : bool :=
  match caller with
  | Some s => negb (String.eqb s EmptyString)
  | None => false
  end.

Definition with_caller (c : Client) (message : string) : string :=
  match find_test_caller c with
  | Some caller =>
      if truthy (Some caller) then "(" +:+ caller +:+ ") " +:+ message
      else message
  | None => message
  end.

(** ** waiters.py *)

Definition message_404 (zone_id : string) (timeout : Z) (status_curr : jvalue)
  : string :=
  "Zone " +:+ zone_id +:+ " failed to 404 within the required time ("
    +:+ pretty timeout +:+ " s). Current status: " +:+ py_str status_curr.

Fixpoint wait_for_zone_404_loop (fuel : nat) (client : Client)
    (zone_id : string) (start : Z) : M value :=
  match fuel with
  | O => diverge
  | S fuel' =>
      time_sleep client (build_interval client) ;;;
      fetched <- try_except
                   (z <- show_zone client zone_id ;; ret (Some z))
                   NotFound
                   (fun _ => log_line ("Zone " +:+ zone_id +:+ " is 404ing") ;;;
                             ret None) ;;
      match fetched with
      | None => ret VNone
      | Some z =>
          now <- time_time ;;
          if build_timeout client <=? py_int now - start then
            status_curr <- getitem z "status" ;;
            raise (Exn TimeoutException
                     (with_caller client
                        (message_404 zone_id (build_timeout client)
                                     status_curr)))
          else wait_for_zone_404_loop fuel' client zone_id start
      end
  end.

Definition wait_for_zone_404 (fuel : nat) (client : Client)
    (zone_id : string) : M value :=
  log_line ("Waiting for zone " +:+ zone_id +:+ " to 404") ;;;
  now <- time_time ;;
  wait_for_zone_404_loop fuel client zone_id (py_int now).

Definition message_status (zone_id status : string) (timeout : Z)
    (status_curr : jvalue) : string :=
  "Zone " +:+ zone_id +:+ " failed to reach status=" +:+ status
    +:+ " within the required time (" +:+ pretty timeout
    +:+ " s). Current status: " +:+ py_str status_curr.

(** [zone['status'] != status] for a [str] target. *)
Definition differs (v : jvalue) (status : string) : bool :=
  negb (bool_decide (v = JStr status)).

Fixpoint wait_for_zone_status_loop (fuel : nat) (client : Client)
    (zone_id status : string) (start : Z) (z : zone) : M value :=
  held <- getitem z "status" ;;
  if differs held status then
    match fuel with
    | O => diverge
    | S fuel' =>
        time_sleep client (build_interval client) ;;;
        z' <- show_zone client zone_id ;;
        status_curr <- getitem z' "status" ;;
        if negb (differs status_curr status) then
          log_line ("Zone " +:+ zone_id +:+ " reached " +:+ status) ;;;
          ret VNone
        else
          now <- time_time ;;
          if build_timeout client <=? py_int now - start then
            raise (Exn TimeoutException
                     (with_caller client
                        (message_status zone_id status (build_timeout client)
                                        status_curr)))
          else wait_for_zone_status_loop fuel' client zone_id status start z'
    end
  else ret VNone.

Definition wait_for_zone_status (fuel : nat) (client : Client)
    (zone_id status : string) : M value :=
  log_line ("Waiting for zone " +:+ zone_id +:+ " to reach " +:+ status) ;;;
  z <- show_zone client zone_id ;;
  now <- time_time ;;
  wait_for_zone_status_loop fuel client zone_id status (py_int now) z.

(** ** services/dns/json/base.py *)

(** *** handle_errors *)

(** A Python callable taking [*args] and [**kwargs]. *)
Definition pyfun : Type := list value -> gmap string value -> M value.

Definition class_of (v : value) : option exn_class :=
  match v with
  | VClass c => Some c
  | _ => None
  end.

(** What an [except] clause accepts as its expression: a class or a tuple
    of classes.  Anything else gives [None], upon which Python 3 raises a
    [TypeError] when the clause is tried. *)
Definition except_classes (v : value) : option (list exn_class) :=
  match v with
  | VClass c => Some [c]
  | VTuple vs => mapM class_of vs
  | _ => None
  end.

(** [repr(type(e))] *)
Definition type_repr (e : exn) : string :=
  "<class '" +:+ class_name (exn_class_of e) +:+ "'>".

Definition handle_errors (f : pyfun) : pyfun :=
  fun args kwargs =>
    let param_name := "ignore_errors" in
    let ignored_errors := default (VTuple []) (kwargs !! param_name) in
    let kwargs :=
      if bool_decide (is_Some (kwargs !! param_name))
      then delete param_name kwargs
      else kwargs in
    fun w =>
      match f args kwargs w with
      | (Raise e, w') =>
          match except_classes ignored_errors with
          | Some classes =>
              if existsb (isinstance e) classes
              then (log_line ("Ignoring exception of type " +:+ type_repr e
                                +:+ ", as requested") ;;;
                    ret VNone) w'
              else (Raise e, w')
          | None =>
              (Raise (Exn TypeError
                        ("catching classes that do not inherit from "
                           +:+ "BaseException is not allowed")), w')
          end
      | other => other
      end.

(** *** The REST layer the client derives from ([tempest.lib]) *)

(** [resp]: the part of the response the client reads.  [resp.status] is
    the status code, an [int]. *)
Record Response := mkResponse { resp_status : Z }.

(** [resp['status']]: the response object is a dict as well, filled with
    the headers and with the status code once more, as a [str]
    ([self['status'] = str(self.status)]). *)
Definition status_item (resp : Response) : value :=
  VStr (pretty (resp_status resp)).

Record RestClient := mkRestClient {
  uri_prefix : string;
  (** [json.dumps] and [json.loads]; [None] when [loads] raises. *)
  json_dumps : zone -> string;
  json_loads : string -> option zone;
  (** [urllib.urlencode] *)
  urlencode : list (string * string) -> string;
  (** [RestClient.request], reached through [self.get], [self.post] and
      [self.delete]: what the n-th call, with the given method, URI and
      body, ends with.  The library raises on a transport failure and on
      every response its own checks refuse (a status of 400 and above
      among them); otherwise it returns the response, here its status
      code, and the body.  What a call does on the network is the
      library's affair. *)
  rest_call : nat -> string -> string -> option string -> exn + Z * string
}.

Definition request (c : RestClient) (method uri : string)
    (body : option string) : M (Response * string) :=
  fun w =>
    let reply := rest_call c (requests w) method uri body in
    let w' := mkWorld (clock w) (shows w) (sleeps w) (S (requests w))
                      (trace w ++ [EvRequest method uri body reply])
                      (logs w) in
    match reply with
    | inl e => (Raise e, w')
    | inr (code, resp_body) => (Val (mkResponse code, resp_body), w')
    end.

Definition get (c : RestClient) (uri : string) := request c "GET" uri None.
Definition post (c : RestClient) (uri body : string) :=
  request c "POST" uri (Some body).
Definition delete_ (c : RestClient) (uri : string) :=
  request c "DELETE" uri None.

(** The first argument of [expected_success]: one code or a list. *)
Inductive expected := One (code : Z) | AnyOf (codes : list Z).

Definition expected_codes (x : expected) : list Z :=
  match x with
  | One code => [code]
  | AnyOf codes => codes
  end.

Definition expected_repr (x : expected) : string :=
  match x with
  | One code => pretty code
  | AnyOf codes => "[" +:+ String.concat ", " (pretty <$> codes) +:+ "]"
  end.

(** [type(v).__name__] *)
Definition type_name (v : value) : string :=
  match v with
  | VNone => "NoneType"
  | VStr _ => "str"
  | VInt _ => "int"
  | VClass _ => "type"
  | VTuple _ => "tuple"
  | VDict _ => "dict"
  end.

(** [RestClient.expected_success(expected_code, read_code)].  The library
    compares [read_code < 400], which Python 3 refuses with a [TypeError]
    for anything that is not a number.  For an [int]: codes of 400 and
    above are left to the checks of [request]; below, a code that is not
    expected is an [InvalidHttpSuccessCode].  (The library also asserts
    that the expected codes are registered success codes, which 200, 201,
    202 and 204 are.) *)
Definition expected_success (x : expected) (read_code : value) : M unit :=
  match read_code with
  | VInt n =>
      if n <? 400 then
        if bool_decide (n ∈ expected_codes x) then ret tt
        else raise (Exn InvalidHttpSuccessCode
                      ("Unexpected http success status code " +:+ pretty n
                         +:+ ", The expected status code is "
                         +:+ expected_repr x))
      else ret tt
  | other =>
      raise (Exn TypeError
               ("'<' not supported between instances of '"
                  +:+ type_name other +:+ "' and 'int'"))
  end.

(** *** DnsClientBase *)

Definition serialize (c : RestClient) (object_dict : zone) : string :=
  json_dumps c object_dict.

Definition deserialize (c : RestClient) (object_str : string) : M zone :=
  match json_loads c object_str with
  | Some d => ret d
  | None => raise (Exn ValueError "No JSON object could be decoded")
  end.

Definition _get_uri (c : RestClient) (resource_name : string)
    (uuid : option string) (params : option (list (string * string)))
  : string :=
  let uuid :=
    match uuid with
    | Some u => if String.eqb u EmptyString then EmptyString else "/" +:+ u
    | None => EmptyString
    end in
  let params :=
    match params with
    | Some (p :: ps) => "?" +:+ urlencode c (p :: ps)
    | _ => EmptyString
    end in
  uri_prefix c +:+ "/" +:+ resource_name +:+ uuid +:+ params.

Definition _create_request (c : RestClient) (resource : string)
    (object_dict : zone) (params : option (list (string * string)))
  : M (Response * zone) :=
  let body := serialize c object_dict in
  let uri := _get_uri c resource None params in
  reply <- post c uri body ;;
  expected_success (AnyOf [201; 202]) (status_item reply.1) ;;;
  obj <- deserialize c reply.2 ;;
  ret (reply.1, obj).

Definition _show_request (c : RestClient) (resource uuid : string)
    (params : option (list (string * string))) : M (Response * zone) :=
  let uri := _get_uri c resource (Some uuid) params in
  reply <- get c uri ;;
  expected_success (One 200) (status_item reply.1) ;;;
  obj <- deserialize c reply.2 ;;
  ret (reply.1, obj).

Definition _delete_request (c : RestClient) (resource uuid : string)
    (params : option (list (string * string))) : M (Response * zone) :=
  let uri := _get_uri c resource (Some uuid) params in
  reply <- delete_ c uri ;;
  expected_success (AnyOf [202; 204]) (status_item reply.1) ;;;
  obj <- deserialize c reply.2 ;;
  ret (reply.1, obj).

(** [DnsClientBase] itself has the empty prefix. *)
Definition DnsClientBase (c : RestClient) : RestClient :=
  mkRestClient EmptyString (json_dumps c) (json_loads c) (urlencode c)
               (rest_call c).

(** services/dns/admin/json/base.py: the admin client only changes the
    prefix. *)
Definition DnsClientAdminBase (c : RestClient) : RestClient :=
  mkRestClient "admin" (json_dumps c) (json_loads c) (urlencode c)
               (rest_call c).

(** ** Executions of the two loops, as traces *)

(** The reply is one the service behind the client gave. *)
Definition replied (client : Client) (zone_id : string) (reply : exn + zone)
  : Prop :=
  exists n t, (show_reply client n zone_id t).2 = reply.

(** What one call of [wait_for_zone_404_loop] appends to the trace, and
    how it ends.  [start] is the recorded start, in whole seconds. *)
Inductive run_404 (client : Client) (zone_id : string) (start : Z)
  : list event -> res value -> Prop :=
  | r404_budget :
      run_404 client zone_id start [] OutOfFuel
  | r404_sleep_refused :
      build_interval client < 0 ->
      run_404 client zone_id start []
        (Raise (Exn ValueError "sleep length must be non-negative"))
  | r404_absent e :
      replied client zone_id (inl e) ->
      isinstance e NotFound = true ->
      run_404 client zone_id start
        [EvSleep (build_interval client); EvShow zone_id (inl e)]
        (Val VNone)
  | r404_error e :
      replied client zone_id (inl e) ->
      isinstance e NotFound = false ->
      run_404 client zone_id start
        [EvSleep (build_interval client); EvShow zone_id (inl e)]
        (Raise e)
  | r404_expired z t v :
      replied client zone_id (inr z) ->
      build_timeout client <= py_int t - start ->
      z !! "status" = Some v ->
      run_404 client zone_id start
        [EvSleep (build_interval client); EvShow zone_id (inr z); EvTime t]
        (Raise (Exn TimeoutException
                  (with_caller client
                     (message_404 zone_id (build_timeout client) v))))
  | r404_expired_no_status z t :
      replied client zone_id (inr z) ->
      build_timeout client <= py_int t - start ->
      z !! "status" = None ->
      run_404 client zone_id start
        [EvSleep (build_interval client); EvShow zone_id (inr z); EvTime t]
        (Raise (Exn KeyError "'status'"))
  | r404_again z t rest r :
      replied client zone_id (inr z) ->
      py_int t - start < build_timeout client ->
      run_404 client zone_id start rest r ->
      run_404 client zone_id start
        (EvSleep (build_interval client) :: EvShow zone_id (inr z)
           :: EvTime t :: rest) r.

(** The same for [wait_for_zone_status_loop], entered with the snapshot
    fetched last. *)
Inductive run_status (client : Client) (zone_id status : string) (start : Z)
  : zone -> list event -> res value -> Prop :=
  | rst_no_status z :
      z !! "status" = None ->
      run_status client zone_id status start z []
        (Raise (Exn KeyError "'status'"))
  | rst_already z :
      z !! "status" = Some (JStr status) ->
      run_status client zone_id status start z [] (Val VNone)
  | rst_budget z v :
      z !! "status" = Some v -> v <> JStr status ->
      run_status client zone_id status start z [] OutOfFuel
  | rst_sleep_refused z v :
      z !! "status" = Some v -> v <> JStr status ->
      build_interval client < 0 ->
      run_status client zone_id status start z []
        (Raise (Exn ValueError "sleep length must be non-negative"))
  | rst_error z v e :
      z !! "status" = Some v -> v <> JStr status ->
      run_status client zone_id status start z
        [EvSleep (build_interval client); EvShow zone_id (inl e)]
        (Raise e)
  | rst_fetched_no_status z v z' :
      z !! "status" = Some v -> v <> JStr status ->
      z' !! "status" = None ->
      run_status client zone_id status start z
        [EvSleep (build_interval client); EvShow zone_id (inr z')]
        (Raise (Exn KeyError "'status'"))
  | rst_reached z v z' :
      z !! "status" = Some v -> v <> JStr status ->
      z' !! "status" = Some (JStr status) ->
      run_status client zone_id status start z
        [EvSleep (build_interval client); EvShow zone_id (inr z')]
        (Val VNone)
  | rst_expired z v z' v' t :
      z !! "status" = Some v -> v <> JStr status ->
      z' !! "status" = Some v' -> v' <> JStr status ->
      build_timeout client <= py_int t - start ->
      run_status client zone_id status start z
        [EvSleep (build_interval client); EvShow zone_id (inr z'); EvTime t]
        (Raise (Exn TimeoutException
                  (with_caller client
                     (message_status zone_id status (build_timeout client)
                                     v'))))
  | rst_again z v z' v' t rest r :
      z !! "status" = Some v -> v <> JStr status ->
      z' !! "status" = Some v' -> v' <> JStr status ->
      py_int t - start < build_timeout client ->
      run_status client zone_id status start z' rest r ->
      run_status client zone_id status start z
        (EvSleep (build_interval client) :: EvShow zone_id (inr z')
           :: EvTime t :: rest) r.

Lemma differs_true v status : differs v status = true <-> v <> JStr status.
Proof.
  unfold differs. rewrite negb_true_iff, bool_decide_eq_false. reflexivity.
Qed.

Lemma differs_false v status : differs v status = false <-> v = JStr status.
Proof.
  unfold differs. rewrite negb_false_iff, bool_decide_eq_true. reflexivity.
Qed.

(** Every call of the 404 loop is such an execution. *)
Lemma wait_for_zone_404_loop_run client zone_id start fuel :
  forall w r w',
    wait_for_zone_404_loop fuel client zone_id start w = (r, w') ->
    exists evs, trace w' = trace w ++ evs /\
                run_404 client zone_id start evs r.
Proof.
  induction fuel as [|fuel IH]; intros w r w' Hrun; simpl in Hrun.
  - inversion Hrun; subst. exists []. rewrite app_nil_r. split; [done|constructor].
  - unfold bind, time_sleep, try_except, show_zone in Hrun.
    destruct (build_interval client <? 0) eqn:Hneg.
    { inversion Hrun; subst. exists []. rewrite app_nil_r.
      split; [done|]. apply r404_sleep_refused. lia. }
    cbn [shows clock sleeps requests trace logs] in Hrun.
    destruct (show_reply client (shows w) zone_id _) as [took reply] eqn:Hrep.
    assert (Hfrom : replied client zone_id reply).
    { eexists _, _. by rewrite Hrep. }
    destruct reply as [e|z].
    + destruct (isinstance e NotFound) eqn:Hnf.
      * unfold log_line, ret in Hrun. inversion Hrun; subst; cbn.
        eexists. rewrite <- app_assoc. split; [reflexivity|].
        by apply r404_absent.
      * inversion Hrun; subst; cbn.
        eexists. rewrite <- app_assoc. split; [reflexivity|].
        by apply r404_error.
    + unfold ret, time_time in Hrun. cbn [shows clock sleeps requests trace logs] in Hrun.
      match type of Hrun with
      | context [py_int ?t] => set (now := t) in *
      end.
      destruct (build_timeout client <=? py_int now - start) eqn:Hexp.
      * unfold getitem in Hrun.
        destruct (z !! "status") as [v|] eqn:Hst;
          unfold ret, raise in Hrun; inversion Hrun; subst r w'; cbn;
          eexists; rewrite <- !app_assoc; (split; [reflexivity|]).
        -- apply r404_expired; [done|lia|done].
        -- apply r404_expired_no_status; [done|lia|done].
      * apply IH in Hrun as (evs & Htr & Hevs). cbn in Htr.
        eexists. rewrite Htr, <- !app_assoc. split; [reflexivity|].
        apply r404_again; [done|lia|done].
Qed.

(** Every call of the status loop is such an execution. *)
Lemma wait_for_zone_status_loop_run client zone_id status start fuel :
  forall z w r w',
    wait_for_zone_status_loop fuel client zone_id status start z w = (r, w') ->
    exists evs, trace w' = trace w ++ evs /\
                run_status client zone_id status start z evs r.
Proof.
  induction fuel as [|fuel IH]; intros z w r w' Hrun; simpl in Hrun;
    unfold bind, getitem in Hrun.
  - destruct (z !! "status") as [v|] eqn:Hst; unfold ret, raise in Hrun.
    + destruct (differs v status) eqn:Hd; unfold diverge, ret in Hrun;
        inversion Hrun; subst; exists []; rewrite app_nil_r; (split; [done|]).
      * eapply rst_budget; [done|]. by apply differs_true.
      * apply rst_already. apply differs_false in Hd. by subst.
    + inversion Hrun; subst. exists []. rewrite app_nil_r.
      split; [done|]. by apply rst_no_status.
  - destruct (z !! "status") as [v|] eqn:Hst; unfold ret, raise in Hrun.
    2:{ inversion Hrun; subst. exists []. rewrite app_nil_r.
        split; [done|]. by apply rst_no_status. }
    destruct (differs v status) eqn:Hd.
    2:{ inversion Hrun; subst. exists []. rewrite app_nil_r.
        split; [done|]. apply rst_already. apply differs_false in Hd.
        by subst. }
    apply differs_true in Hd.
    unfold time_sleep, show_zone in Hrun.
    destruct (build_interval client <? 0) eqn:Hneg.
    { inversion Hrun; subst. exists []. rewrite app_nil_r.
      split; [done|]. eapply rst_sleep_refused; [done..|lia]. }
    cbn [shows clock sleeps requests trace logs] in Hrun.
    destruct (show_reply client (shows w) zone_id _) as [took [e|z']].
    + inversion Hrun; subst; cbn.
      eexists. rewrite <- app_assoc. split; [reflexivity|].
      by eapply rst_error.
    + destruct (z' !! "status") as [v'|] eqn:Hst'.
      2:{ inversion Hrun; subst; cbn.
          eexists. rewrite <- app_assoc. split; [reflexivity|].
          by eapply rst_fetched_no_status. }
      destruct (differs v' status) eqn:Hd'; cbn [negb] in Hrun.
      2:{ unfold log_line, ret in Hrun. inversion Hrun; subst; cbn.
          eexists. rewrite <- app_assoc. split; [reflexivity|].
          eapply rst_reached; [done..|]. apply differs_false in Hd'.
          by subst. }
      apply differs_true in Hd'.
      unfold time_time in Hrun. cbn [shows clock sleeps requests trace logs] in Hrun.
      match type of Hrun with
      | context [py_int ?t] => set (now := t) in *
      end.
      destruct (build_timeout client <=? py_int now - start) eqn:Hexp.
      * unfold raise in Hrun. inversion Hrun; subst r w'; cbn.
        eexists. rewrite <- !app_assoc. split; [reflexivity|].
        eapply rst_expired; [done..|lia].
      * apply IH in Hrun as (evs & Htr & Hevs). cbn in Htr.
        eexists. rewrite Htr, <- !app_assoc. split; [reflexivity|].
        eapply rst_again; [done..|lia|done].
Qed.

Lemma wait_for_zone_404_run client zone_id fuel w r w' :
  wait_for_zone_404 fuel client zone_id w = (r, w') ->
  exists evs, trace w' = trace w ++ EvTime (clock w) :: evs /\
              run_404 client zone_id (py_int (clock w)) evs r.
Proof.
  unfold wait_for_zone_404, bind, log_line, time_time.
  cbn [shows clock sleeps requests trace logs]. intros Hrun.
  apply wait_for_zone_404_loop_run in Hrun as (evs & Htr & Hevs).
  cbn in Htr. exists evs. by rewrite Htr, <- app_assoc.
Qed.

Lemma wait_for_zone_status_run client zone_id status fuel w r w' :
  wait_for_zone_status fuel client zone_id status w = (r, w') ->
  match show_reply client (shows w) zone_id (clock w) with
  | (took, inl e) =>
      r = Raise e /\ trace w' = trace w ++ [EvShow zone_id (inl e)]
  | (took, inr z) =>
      exists evs,
        trace w' = trace w ++ EvShow zone_id (inr z)
                     :: EvTime (clock w + Z.of_N took) :: evs /\
        run_status client zone_id status
                   (py_int (clock w + Z.of_N took)) z evs r
  end.
Proof.
  unfold wait_for_zone_status, bind, log_line, show_zone, time_time.
  cbn [shows clock sleeps requests trace logs]. intros Hrun.
  destruct (show_reply client (shows w) zone_id (clock w)) as [took [e|z]].
  - by inversion Hrun; subst.
  - cbn [shows clock sleeps requests trace logs] in Hrun.
    apply wait_for_zone_status_loop_run in Hrun as (evs & Htr & Hevs).
    cbn in Htr. exists evs. by rewrite Htr, <- !app_assoc.
Qed.

(** ** The deadline check *)

(** The discipline both loops follow.  An iteration sleeps, fetches and,
    unless the wait ends at the fetch, reads the clock once, right after
    the fetch.  The loop goes on exactly when that reading is short of the
    deadline and ends by raising when it is not.  A run that ends anywhere
    else raises a [TimeoutException] only if the fetch itself raised it. *)
Inductive polled (client : Client) (zone_id : string) (start : Z)
  : list event -> res value -> Prop :=
  | polled_idle r :
      (forall e, r = Raise e -> exn_class_of e <> TimeoutException) ->
      polled client zone_id start [] r
  | polled_at_fetch reply r :
      (forall e, r = Raise e -> exn_class_of e = TimeoutException ->
                 reply = inl e) ->
      polled client zone_id start
        [EvSleep (build_interval client); EvShow zone_id reply] r
  | polled_expired z t e :
      build_timeout client <= py_int t - start ->
      polled client zone_id start
        [EvSleep (build_interval client); EvShow zone_id (inr z); EvTime t]
        (Raise e)
  | polled_again z t rest r :
      py_int t - start < build_timeout client ->
      polled client zone_id start rest r ->
      polled client zone_id start
        (EvSleep (build_interval client) :: EvShow zone_id (inr z)
           :: EvTime t :: rest) r.

Lemma run_404_polled client zone_id start evs r :
  run_404 client zone_id start evs r -> polled client zone_id start evs r.
Proof.
  induction 1.
  - apply polled_idle. discriminate.
  - apply polled_idle. by intros e [= <-].
  - apply polled_at_fetch. discriminate.
  - apply polled_at_fetch. by intros e' [= <-].
  - by apply polled_expired.
  - by apply polled_expired.
  - by apply polled_again.
Qed.

Lemma run_status_polled client zone_id status start z evs r :
  run_status client zone_id status start z evs r ->
  polled client zone_id start evs r.
Proof.
  induction 1.
  - apply polled_idle. by intros e [= <-].
  - apply polled_idle. discriminate.
  - apply polled_idle. discriminate.
  - apply polled_idle. by intros e [= <-].
  - apply polled_at_fetch. by intros e' [= <-].
  - apply polled_at_fetch. by intros e' [= <-].
  - apply polled_at_fetch. discriminate.
  - by apply polled_expired.
  - by apply polled_again.
Qed.

(** ** Scenarios *)

Definition pending : zone := {[ "status" := JStr "PENDING" ]}.
Definition active : zone := {[ "status" := JStr "ACTIVE" ]}.

(** A service that answers the n-th call with the n-th entry of a script
    and with [final] after it, at no cost in time. *)
Definition scripted (interval timeout : Z) (script : list (exn + zone))
    (final : exn + zone) (caller : option string) : Client :=
  mkClient interval timeout
           (fun n _ _ => (0%N, default final (script !! n)))
           (fun _ => 0%N) caller.

Definition at_noon : World := mkWorld 43200000 0 0 0 [] [].

(** interval 1 s, deadline 5 s, PENDING three times, then ACTIVE. *)
Definition converging : Client :=
  scripted 1 5 [inr pending; inr pending; inr pending] (inr active)
           (Some "ZonesTest:test_create_zone").

(** interval 1 s, deadline 2 s, PENDING for ever. *)
Definition stuck : Client := scripted 1 2 [] (inr pending) None.

(** interval 1 s, deadline 10 s, gone at the third call. *)
Definition vanishing : Client :=
  scripted 1 10 [inr active; inr pending]
           (inl (Exn NotFound "Object not found")) None.

(** ** C2: the deadline check *)

(** C2 (as amended). In both waiters the deadline is looked at at most
    once per iteration, right after the fetch and never during the sleep,
    and exactly once in every iteration that the fetch does not end: the
    clock readings that follow the recorded start each come straight after
    a sleep and a fetch.  A reading short of the deadline lets the loop go
    on; the waiter raises its timeout only at a reading [t] with
    [build_timeout <= int(t) - start]; a [TimeoutException] at any other
    point of a run is one the fetch raised.  ([wait_for_zone_status] reads
    no clock at all when its first fetch fails.) *)
Theorem timeout_only_at_deadline_check client zone_id status fuel w r1 w1 r2 w2 :
  wait_for_zone_404 fuel client zone_id w = (r1, w1) ->
  wait_for_zone_status fuel client zone_id status w = (r2, w2) ->
  (exists t0 evs,
     trace w1 = trace w ++ EvTime t0 :: evs /\
     polled client zone_id (py_int t0) evs r1) /\
  ((exists e, trace w2 = trace w ++ [EvShow zone_id (inl e)] /\
              r2 = Raise e) \/
   (exists z t0 evs,
      trace w2 = trace w ++ EvShow zone_id (inr z) :: EvTime t0 :: evs /\
      polled client zone_id (py_int t0) evs r2)).
Proof.
  intros H404 Hst. split.
  - apply wait_for_zone_404_run in H404 as (evs & Htr & Hevs).
    exists (clock w), evs. split; [done|]. by apply run_404_polled.
  - apply wait_for_zone_status_run in Hst.
    destruct (show_reply client (shows w) zone_id (clock w)) as [took [e|z]].
    + left. exists e. by destruct Hst.
    + right. destruct Hst as (evs & Htr & Hevs).
      exists z, (clock w + Z.of_N took), evs. split; [done|].
      by eapply run_status_polled.
Qed.

Lemma timeout_only_at_deadline_check_witness :
  let run1 := wait_for_zone_404 8 stuck "z1" at_noon in
  let run2 := wait_for_zone_status 8 stuck "z1" "ACTIVE" at_noon in
  (exists t0 evs,
     trace run1.2 = trace at_noon ++ EvTime t0 :: evs /\
     polled stuck "z1" (py_int t0) evs run1.1) /\
  ((exists e, trace run2.2 = trace at_noon ++ [EvShow "z1" (inl e)] /\
              run2.1 = Raise e) \/
   (exists z t0 evs,
      trace run2.2 = trace at_noon ++ EvShow "z1" (inr z) :: EvTime t0 :: evs /\
      polled stuck "z1" (py_int t0) evs run2.1)).
Proof.
  intros run1 run2.
  apply (timeout_only_at_deadline_check stuck "z1" "ACTIVE" 8 at_noon);
    vm_compute; reflexivity.
Defined.

(** Iterations begun (each begins with its sleep) and clock readings
    taken in a trace. *)
Definition iterations_begun (evs : list event) : nat :=
  length (List.filter
            (fun ev => match ev with EvSleep _ => true | _ => false end) evs).

Definition clock_readings (evs : list event) : nat :=
  length (List.filter
            (fun ev => match ev with EvTime _ => true | _ => false end) evs).

(** C2, as stated, fails on the count: the iteration in which the fetch
    ends the wait makes no deadline check.  Here the zone is gone at the
    third fetch: three iterations, and after the reading that records the
    start only two more. *)
Lemma last_iteration_makes_no_check :
  let run := wait_for_zone_404 10 vanishing "z1" at_noon in
  run.1 = Val VNone /\
  trace run.2
  = [EvTime 43200000;
     EvSleep 1; EvShow "z1" (inr active); EvTime 43201000;
     EvSleep 1; EvShow "z1" (inr pending); EvTime 43202000;
     EvSleep 1; EvShow "z1" (inl (Exn NotFound "Object not found"))] /\
  iterations_begun (trace run.2) = 3%nat /\
  clock_readings (trace run.2) = 3%nat.
Proof. vm_compute. repeat split; reflexivity. Qed.

(** ** C5: when the start is recorded *)

(** The first call takes 2.5 s; the zone is ACTIVE from the second one. *)
Definition slow_first : Client :=
  mkClient 1 5
           (fun n _ _ => match n with
                         | O => (2500%N, inr pending)
                         | _ => (0%N, inr active)
                         end)
           (fun _ => 0%N) None.

(** C5. [wait_for_zone_404] reads the clock first: the reading is the
    clock at the call, before any sleep or fetch, and it is the start the
    deadline checks measure from.  [wait_for_zone_status] fetches first:
    when that fetch fails nothing is recorded, and otherwise the start is
    the clock read once the fetch has completed, so the time the first
    fetch took is not counted against the deadline. *)
Theorem start_recorded_before_or_after_first_fetch
    client zone_id status fuel w r1 w1 r2 w2 :
  wait_for_zone_404 fuel client zone_id w = (r1, w1) ->
  wait_for_zone_status fuel client zone_id status w = (r2, w2) ->
  (exists evs,
     trace w1 = trace w ++ EvTime (clock w) :: evs /\
     polled client zone_id (py_int (clock w)) evs r1) /\
  match show_reply client (shows w) zone_id (clock w) with
  | (took, inl e) =>
      trace w2 = trace w ++ [EvShow zone_id (inl e)] /\ r2 = Raise e
  | (took, inr z) =>
      exists evs,
        trace w2 = trace w ++ EvShow zone_id (inr z)
                     :: EvTime (clock w + Z.of_N took) :: evs /\
        polled client zone_id (py_int (clock w + Z.of_N took)) evs r2
  end.
Proof.
  intros H404 Hst. split.
  - apply wait_for_zone_404_run in H404 as (evs & Htr & Hevs).
    exists evs. split; [done|]. by apply run_404_polled.
  - apply wait_for_zone_status_run in Hst.
    destruct (show_reply client (shows w) zone_id (clock w)) as [took [e|z]].
    + by destruct Hst.
    + destruct Hst as (evs & Htr & Hevs).
      exists evs. split; [done|]. by eapply run_status_polled.
Qed.

Lemma start_recorded_before_or_after_first_fetch_witness :
  let run1 := wait_for_zone_404 8 slow_first "z1" at_noon in
  let run2 := wait_for_zone_status 8 slow_first "z1" "ACTIVE" at_noon in
  (exists evs,
     trace run1.2 = trace at_noon ++ EvTime 43200000 :: evs /\
     polled slow_first "z1" 43200 evs run1.1) /\
  (exists evs,
     trace run2.2 = trace at_noon ++ EvShow "z1" (inr pending)
                      :: EvTime 43202500 :: evs /\
     polled slow_first "z1" 43202 evs run2.1).
Proof.
  intros run1 run2.
  apply (start_recorded_before_or_after_first_fetch
           slow_first "z1" "ACTIVE" 8 at_noon);
    vm_compute; reflexivity.
Defined.

(** ** C4: errors of the fetch *)

Lemma run_404_fetch_error client zone_id start evs r :
  run_404 client zone_id start evs r ->
  forall e, EvShow zone_id (inl e) ∈ evs ->
    last evs = Some (EvShow zone_id (inl e)) /\
    r = (if isinstance e NotFound then Val VNone else Raise e).
Proof.
  induction 1 as [| |e0 ? Hnf|e0 ? Hnf| | |z t rest r ? ? Hrest IH];
    intros e Hin.
  - by apply elem_of_nil in Hin.
  - by apply elem_of_nil in Hin.
  - set_unfold in Hin. destruct Hin as [|[[= ->]|]]; try done.
    by rewrite Hnf.
  - set_unfold in Hin. destruct Hin as [|[[= ->]|]]; try done.
    by rewrite Hnf.
  - set_unfold in Hin. by destruct Hin as [|[|[|]]].
  - set_unfold in Hin. by destruct Hin as [|[|[|]]].
  - set_unfold in Hin. destruct Hin as [|[|[|Hin]]]; try done.
    apply IH in Hin as [Hlast Hr]. split; [|done].
    by rewrite !last_cons, Hlast.
Qed.

Lemma run_status_fetch_error client zone_id status start z evs r :
  run_status client zone_id status start z evs r ->
  forall e, EvShow zone_id (inl e) ∈ evs ->
    last evs = Some (EvShow zone_id (inl e)) /\ r = Raise e.
Proof.
  induction 1 as [| | | |? ? e0| | | |? ? ? ? ? ? ? ? ? ? ? ? ? IH];
    intros e Hin; set_unfold in Hin.
  1-4: done.
  - by destruct Hin as [|[[= ->]|]].
  - by destruct Hin as [|[|]].
  - by destruct Hin as [|[|]].
  - by destruct Hin as [|[|[|]]].
  - destruct Hin as [|[|[|Hin]]]; try done.
    apply IH in Hin as [Hlast Hr]. split; [|done].
    by rewrite !last_cons, Hlast.
Qed.

(** C4. An exception of [show_zone] that the waiter does not name goes to
    the caller as it is: the call ends by raising that very exception and
    the failed fetch is the last thing the waiter did (no further sleep,
    fetch or clock reading).  Only [wait_for_zone_404] names one,
    [NotFound]; [wait_for_zone_status] hands up every exception. *)
Theorem fetch_errors_propagate client zone_id status fuel w r1 w1 r2 w2 :
  wait_for_zone_404 fuel client zone_id w = (r1, w1) ->
  wait_for_zone_status fuel client zone_id status w = (r2, w2) ->
  exists evs1 evs2,
    trace w1 = trace w ++ evs1 /\
    trace w2 = trace w ++ evs2 /\
    (forall e, EvShow zone_id (inl e) ∈ evs1 ->
               isinstance e NotFound = false ->
               r1 = Raise e /\ last evs1 = Some (EvShow zone_id (inl e))) /\
    (forall e, EvShow zone_id (inl e) ∈ evs2 ->
               r2 = Raise e /\ last evs2 = Some (EvShow zone_id (inl e))).
Proof.
  intros H404 Hst.
  apply wait_for_zone_404_run in H404 as (evs & Htr & Hevs).
  apply wait_for_zone_status_run in Hst.
  exists (EvTime (clock w) :: evs).
  assert (H404 : forall e,
             EvShow zone_id (inl e) ∈ EvTime (clock w) :: evs ->
             isinstance e NotFound = false ->
             r1 = Raise e /\
             last (EvTime (clock w) :: evs) = Some (EvShow zone_id (inl e))).
  { intros e Hin Hnf. set_unfold in Hin. destruct Hin as [|Hin]; [done|].
    destruct (run_404_fetch_error _ _ _ _ _ Hevs e Hin) as [Hlast Hr].
    rewrite Hnf in Hr. split; [done|]. by rewrite last_cons, Hlast. }
  destruct (show_reply client (shows w) zone_id (clock w)) as [took [e0|z]].
  - destruct Hst as [-> Htr2]. exists [EvShow zone_id (inl e0)].
    do 3 (split; [done|]). intros e Hin. set_unfold in Hin.
    by destruct Hin as [[= ->]|].
  - destruct Hst as (evs2 & Htr2 & Hevs2).
    exists (EvShow zone_id (inr z) :: EvTime (clock w + Z.of_N took) :: evs2).
    do 3 (split; [done|]). intros e Hin. set_unfold in Hin.
    destruct Hin as [|[|Hin]]; [done..|].
    destruct (run_status_fetch_error _ _ _ _ _ _ _ Hevs2 e Hin)
      as [Hlast Hr].
    split; [done|]. by rewrite !last_cons, Hlast.
Qed.

(** interval 1 s, deadline 5 s; the service fails at the second call. *)
Definition faulty : Client :=
  scripted 1 5 [inr pending] (inl (Exn ServerFault "Got server fault")) None.

Lemma fetch_errors_propagate_witness :
  let run1 := wait_for_zone_404 8 faulty "z1" at_noon in
  let run2 := wait_for_zone_status 8 faulty "z1" "ACTIVE" at_noon in
  exists evs1 evs2,
    trace run1.2 = trace at_noon ++ evs1 /\
    trace run2.2 = trace at_noon ++ evs2 /\
    (forall e, EvShow "z1" (inl e) ∈ evs1 ->
               isinstance e NotFound = false ->
               run1.1 = Raise e /\ last evs1 = Some (EvShow "z1" (inl e))) /\
    (forall e, EvShow "z1" (inl e) ∈ evs2 ->
               run2.1 = Raise e /\ last evs2 = Some (EvShow "z1" (inl e))).
Proof.
  intros run1 run2.
  apply (fetch_errors_propagate faulty "z1" "ACTIVE" 8 at_noon);
    vm_compute; reflexivity.
Defined.

(** ** C3: the exits of wait_for_zone_404 *)

Lemma py_int_advance a d : 0 <= a -> 1000 <= d -> py_int a + 1 <= py_int (a + d).
Proof.
  intros Ha Hd. unfold py_int. rewrite !Z.quot_div_nonneg by lia.
  Z.div_mod_to_equations. lia.
Qed.

(** An interval other than 0 ends every call within a budget of
    [build_timeout] iterations: a negative one is refused by the first
    sleep, a positive one moves the clock by a second or more in every
    iteration. *)
Lemma wait_for_zone_404_loop_ends client zone_id start fuel :
  forall w,
    build_interval client <> 0 -> 0 <= clock w -> (0 < fuel)%nat ->
    build_timeout client - (py_int (clock w) - start) <= Z.of_nat fuel ->
    (wait_for_zone_404_loop fuel client zone_id start w).1 <> OutOfFuel.
Proof.
  induction fuel as [|fuel IH]; intros w Hint Hclock Hfuel Hleft; [lia|].
  simpl. unfold bind, time_sleep, try_except, show_zone.
  destruct (build_interval client <? 0) eqn:Hneg; [done|].
  cbn [shows clock sleeps requests trace logs].
  destruct (show_reply client (shows w) zone_id _) as [took [e|z]].
  - destruct (isinstance e NotFound); done.
  - unfold ret, time_time. cbn [shows clock sleeps requests trace logs].
    match goal with
    | |- context [py_int ?t] => set (now := t) in *
    end.
    assert (Hnow : py_int (clock w) + 1 <= py_int now).
    { subst now. rewrite <- !Z.add_assoc. apply py_int_advance; lia. }
    destruct (build_timeout client <=? py_int now - start) eqn:Hexp.
    + unfold getitem. by destruct (z !! "status").
    + apply IH; cbn [clock]; subst now; lia.
Qed.

(** The ways a run of the 404 loop raises: the waiter's own timeout at a
    clock reading at or past the deadline; the exception of the fetch that
    comes last; the [KeyError] of [zone['status']], when the deadline has
    passed and the snapshot in hand has no such member; the [ValueError]
    of a sleep of negative length, before anything was fetched. *)
Definition raised_404 (client : Client) (zone_id : string) (start : Z)
    (evs : list event) (e : exn) : Prop :=
  (exn_class_of e = TimeoutException /\
   exists t, last evs = Some (EvTime t) /\
             build_timeout client <= py_int t - start) \/
  last evs = Some (EvShow zone_id (inl e)) \/
  (e = Exn KeyError "'status'" /\
   exists pre z t, evs = pre ++ [EvShow zone_id (inr z); EvTime t] /\
                   z !! "status" = None /\
                   build_timeout client <= py_int t - start) \/
  (e = Exn ValueError "sleep length must be non-negative" /\
   build_interval client < 0 /\ evs = []).

Lemma run_404_outcome client zone_id start evs r :
  run_404 client zone_id start evs r ->
  0 <= build_interval client ->
  r = OutOfFuel \/
  (r = Val VNone /\
   exists e, last evs = Some (EvShow zone_id (inl e)) /\
             isinstance e NotFound = true) \/
  (exists e, r = Raise e /\ raised_404 client zone_id start evs e).
Proof.
  intros Hrun Hint. unfold raised_404.
  induction Hrun as [|Hneg|e|e|z t v|z t Hz Hexp Hnone
                     |z t rest r Hz Hearly Hrest IH].
  - by left.
  - lia.
  - right; left. split; [done|]. by exists e.
  - right; right. exists e. split; [done|]. right; left. done.
  - right; right. eexists. split; [done|]. left. split; [done|]. by exists t.
  - right; right. eexists. split; [done|]. right; right; left.
    split; [done|]. by exists [EvSleep (build_interval client)], z, t.
  - destruct IH as [->|[(-> & e & Hlast & Hnf)|(e & -> & Hcase)]].
    + by left.
    + right; left. split; [done|]. exists e. by rewrite !last_cons, Hlast.
    + right; right. exists e. split; [done|].
      destruct Hcase as [(Hcls & t' & Hlast & Hexp)|[Hlast
                         |[(-> & pre & z' & t' & -> & Hnone & Hexp)
                          |(_ & Hneg & _)]]].
      * left. split; [done|]. exists t'. by rewrite !last_cons, Hlast.
      * right; left. by rewrite !last_cons, Hlast.
      * right; right; left. split; [done|].
        by exists (EvSleep (build_interval client) :: EvShow zone_id (inr z)
                     :: EvTime t :: pre), z', t'.
      * lia.
Qed.

(** A negative interval stops the loop at its first sleep. *)
Lemma wait_for_zone_404_loop_refused client zone_id start fuel w :
  build_interval client < 0 ->
  wait_for_zone_404_loop (S fuel) client zone_id start w
  = (Raise (Exn ValueError "sleep length must be non-negative"), w).
Proof.
  intros Hneg. simpl. unfold bind, time_sleep.
  by rewrite (proj2 (Z.ltb_lt _ _) Hneg).
Qed.

(** C3 (as amended). Every call of [wait_for_zone_404] that ends returns
    (the value [None]) exactly when a fetch raised [NotFound]; that fetch
    is then the last thing the call did.  Every other call ends by
    raising: the waiter's [TimeoutException], right after a clock reading
    at or past the deadline; the exception of the fetch that comes last;
    the [KeyError] of reading [status] from a snapshot without it, once
    the deadline has passed; or the [ValueError] of a sleep of negative
    length.  And every call does end: with an interval other than 0, a
    loop budget of [build_timeout] iterations is never used up. *)
Theorem wait_for_zone_404_exits client zone_id fuel w r w' :
  wait_for_zone_404 fuel client zone_id w = (r, w') ->
  (build_interval client <> 0 -> 0 <= clock w -> (0 < fuel)%nat ->
   build_timeout client <= Z.of_nat fuel -> r <> OutOfFuel) /\
  exists evs,
    trace w' = trace w ++ EvTime (clock w) :: evs /\
    (r = Val VNone <->
     exists e, EvShow zone_id (inl e) ∈ evs /\ isinstance e NotFound = true) /\
    (forall e, EvShow zone_id (inl e) ∈ evs -> isinstance e NotFound = true ->
               last evs = Some (EvShow zone_id (inl e))) /\
    (r = OutOfFuel \/ r = Val VNone \/
     exists e, r = Raise e /\
               raised_404 client zone_id (py_int (clock w)) evs e).
Proof.
  intros Hrun. split.
  { intros Hint Hclock Hfuel Hbudget.
    pose proof (wait_for_zone_404_loop_ends client zone_id
                  (py_int (clock w)) fuel
                  (mkWorld (clock w) (shows w) (sleeps w) (requests w)
                           (trace w ++ [EvTime (clock w)])
                           (logs w ++ ["Waiting for zone " +:+ zone_id
                                         +:+ " to 404"]))
                  Hint Hclock Hfuel) as Hne.
    cbn [clock] in Hne.
    unfold wait_for_zone_404, bind, log_line, time_time in Hrun.
    cbn [shows clock sleeps requests trace logs] in Hrun.
    rewrite Hrun in Hne. apply Hne. lia. }
  destruct (Z.lt_ge_cases (build_interval client) 0) as [Hneg|Hint].
  { exists []. unfold wait_for_zone_404, bind, log_line, time_time in Hrun.
    cbn [shows clock sleeps requests trace logs] in Hrun.
    destruct fuel as [|fuel].
    - inversion Hrun; subst r w'; cbn [trace].
      split; [done|]. split; [|split].
      + split; [done|]. intros (e & Hin & _). by apply elem_of_nil in Hin.
      + intros e Hin. by apply elem_of_nil in Hin.
      + by left.
    - rewrite wait_for_zone_404_loop_refused in Hrun by done.
      inversion Hrun; subst r w'; cbn [trace].
      split; [done|]. split; [|split].
      + split; [done|]. intros (e & Hin & _). by apply elem_of_nil in Hin.
      + intros e Hin. by apply elem_of_nil in Hin.
      + do 2 right. eexists. split; [done|]. by do 3 right. }
  apply wait_for_zone_404_run in Hrun as (evs & Htr & Hevs).
  exists evs. split; [done|].
  pose proof (run_404_fetch_error _ _ _ _ _ Hevs) as Herr.
  pose proof (run_404_outcome _ _ _ _ _ Hevs ltac:(lia)) as Hout.
  split; [|split].
  - split.
    + intros ->. destruct Hout as [|[(_ & e & Hlast & Hnf)|(e & ? & _)]];
        [done| |done].
      exists e. split; [|done]. apply last_Some in Hlast as [pre ->].
      clear. set_solver.
    + intros (e & Hin & Hnf). apply Herr in Hin as [_ Hr].
      by rewrite Hr, Hnf.
  - intros e Hin _. apply Herr in Hin as [Hlast _]. exact Hlast.
  - destruct Hout as [|[[-> _]|Hraise]]; [by left|by right; left|by do 2 right].
Qed.

Lemma wait_for_zone_404_exits_witness :
  let run := wait_for_zone_404 10 vanishing "z1" at_noon in
  (build_interval vanishing <> 0 -> 0 <= clock at_noon -> (0 < 10)%nat ->
   build_timeout vanishing <= Z.of_nat 10 -> run.1 <> OutOfFuel) /\
  exists evs,
    trace run.2 = trace at_noon ++ EvTime (clock at_noon) :: evs /\
    (run.1 = Val VNone <->
     exists e, EvShow "z1" (inl e) ∈ evs /\ isinstance e NotFound = true) /\
    (forall e, EvShow "z1" (inl e) ∈ evs -> isinstance e NotFound = true ->
               last evs = Some (EvShow "z1" (inl e))) /\
    (run.1 = OutOfFuel \/ run.1 = Val VNone \/
     exists e, run.1 = Raise e /\
               raised_404 vanishing "z1" (py_int (clock at_noon)) evs e).
Proof.
  intros run.
  apply (wait_for_zone_404_exits vanishing "z1" 10 at_noon).
  vm_compute; reflexivity.
Defined.

(** A zone whose snapshots have no [status] member, polled every second
    against a deadline of one second. *)
Definition statusless : Client := scripted 1 1 [] (inr ∅) None.

(** A polling interval of minus one second. *)
Definition backwards : Client := scripted (-1) 5 [] (inr pending) None.

(** C3, as stated, fails: a call can end in an exception that is neither
    the waiter's [TimeoutException] nor one a fetch raised.  When the
    deadline passes with a snapshot that has no [status], building the
    message raises a [KeyError] (every fetch of the run returned a
    snapshot); with a negative interval the first sleep raises a
    [ValueError] before any fetch is made. *)
Lemma wait_for_zone_404_unlisted_exits :
  wait_for_zone_404 5 statusless "z1" at_noon
  = (Raise (Exn KeyError "'status'"),
     mkWorld 43201000 1 1 0
             [EvTime 43200000; EvSleep 1; EvShow "z1" (inr ∅);
              EvTime 43201000]
             ["Waiting for zone z1 to 404"]) /\
  isinstance (Exn KeyError "'status'") TimeoutException = false /\
  wait_for_zone_404 5 backwards "z1" at_noon
  = (Raise (Exn ValueError "sleep length must be non-negative"),
     mkWorld 43200000 0 0 0 [EvTime 43200000]
             ["Waiting for zone z1 to 404"]) /\
  isinstance (Exn ValueError "sleep length must be non-negative")
             TimeoutException = false.
Proof. repeat split; vm_compute; reflexivity. Qed.

(** ** C9: what the timeout message holds *)

(** [part in s] *)
Fixpoint contains (s part : string) : bool :=
  if String.prefix part s then true
  else match s with
       | EmptyString => false
       | String _ s' => contains s' part
       end.

Lemma prefix_append p q : String.prefix p (p +:+ q) = true.
Proof.
  induction p as [|a p IH]; simpl; [by destruct q|].
  by destruct (Ascii.ascii_dec a a).
Qed.

Lemma prefix_extend part : forall s q,
  String.prefix part s = true -> String.prefix part (s +:+ q) = true.
Proof.
  induction part as [|a part IH]; intros s q; simpl.
  - by destruct (s +:+ q).
  - destruct s as [|b s]; simpl; [done|].
    destruct (Ascii.ascii_dec a b); [apply IH|done].
Qed.

Lemma contains_unfold s part :
  contains s part =
  if String.prefix part s then true
  else match s with
       | EmptyString => false
       | String _ s' => contains s' part
       end.
Proof. by destruct s. Qed.

Lemma contains_here p q : contains (p +:+ q) p = true.
Proof. by rewrite contains_unfold, prefix_append. Qed.

Lemma contains_self s : contains s s = true.
Proof.
  rewrite contains_unfold.
  assert (H : String.prefix s s = true); [|by rewrite H].
  induction s as [|a s IH]; simpl; [done|].
  by destruct (Ascii.ascii_dec a a).
Qed.

Lemma contains_skip a s part :
  contains s part = true -> contains (a +:+ s) part = true.
Proof.
  intros H. induction a as [|c a IH]; [done|].
  change (String c a +:+ s) with (String c (a +:+ s)).
  rewrite contains_unfold. by destruct (String.prefix part _).
Qed.

Lemma contains_left s q part :
  contains s part = true -> contains (s +:+ q) part = true.
Proof.
  induction s as [|c s IH]; intros H.
  - rewrite contains_unfold in H.
    destruct (String.prefix part EmptyString) eqn:E; [|done].
    by rewrite contains_unfold, (prefix_extend _ _ q E).
  - rewrite contains_unfold in H.
    destruct (String.prefix part (String c s)) eqn:E.
    + by rewrite contains_unfold, (prefix_extend _ _ q E).
    + change (String c s +:+ q) with (String c (s +:+ q)).
      rewrite contains_unfold.
      destruct (String.prefix part (String c (s +:+ q))); auto.
Qed.

Lemma contains_with_caller client message part :
  contains message part = true ->
  contains (with_caller client message) part = true.
Proof.
  intros H. unfold with_caller.
  destruct (find_test_caller client) as [c|]; [|done].
  destruct (truthy (Some c)); [|done].
  by do 3 apply contains_skip.
Qed.

Lemma contains_caller client message c :
  find_test_caller client = Some c -> c <> EmptyString ->
  contains (with_caller client message) c = true.
Proof.
  intros Hc Hne. unfold with_caller, truthy. rewrite Hc.
  destruct (String.eqb_spec c EmptyString); [done|]. cbn [negb].
  apply (contains_skip "(" _ c), contains_here.
Qed.

Lemma run_404_timeout_message client zone_id start evs r :
  run_404 client zone_id start evs r ->
  forall e t, r = Raise e -> exn_class_of e = TimeoutException ->
    last evs = Some (EvTime t) ->
    exists pre z v,
      evs = pre ++ [EvShow zone_id (inr z); EvTime t] /\
      z !! "status" = Some v /\
      exn_msg e = with_caller client
                    (message_404 zone_id (build_timeout client) v).
Proof.
  induction 1 as [| |e0|e0|z t0 v|z t0|z t0 rest r ? ? Hrest IH];
    intros e t Hr Hcls Hlast; try done.
  - injection Hr as <-. injection Hlast as <-.
    by exists [EvSleep (build_interval client)], z, v.
  - by injection Hr as <-.
  - destruct rest as [|ev rest].
    { subst r. inversion Hrest; subst. discriminate Hcls. }
    do 3 rewrite last_cons_cons in Hlast.
    destruct (IH e t Hr Hcls Hlast) as (pre & z' & v' & -> & Hst & Hmsg).
    by exists (EvSleep (build_interval client) :: EvShow zone_id (inr z)
                 :: EvTime t0 :: pre), z', v'.
Qed.

Lemma run_status_timeout_message client zone_id status start z evs r :
  run_status client zone_id status start z evs r ->
  forall e t, r = Raise e -> exn_class_of e = TimeoutException ->
    last evs = Some (EvTime t) ->
    exists pre z' v,
      evs = pre ++ [EvShow zone_id (inr z'); EvTime t] /\
      z' !! "status" = Some v /\
      exn_msg e = with_caller client
                    (message_status zone_id status (build_timeout client) v).
Proof.
  induction 1 as [| | | | | | |z v z' v' t0
                  |z v z' v' t0 rest r ? ? ? ? ? Hrest IH];
    intros e1 t1 Hr Hcls Hlast; try done.
  - injection Hr as <-. injection Hlast as <-.
    by exists [EvSleep (build_interval client)], z', v'.
  - destruct rest as [|ev rest].
    { subst r. inversion Hrest; subst; discriminate Hcls. }
    do 3 rewrite last_cons_cons in Hlast.
    destruct (IH e1 t1 Hr Hcls Hlast) as (pre & z'' & v'' & -> & Hst & Hmsg).
    by exists (EvSleep (build_interval client) :: EvShow zone_id (inr z')
                 :: EvTime t0 :: pre), z'', v''.
Qed.

(** The two waiters, and how each words the condition it waits for. *)
Inductive waiter :=
  | Until404
  | UntilStatus (status : string).

Definition wait (wt : waiter) (fuel : nat) (client : Client)
    (zone_id : string) : M value :=
  match wt with
  | Until404 => wait_for_zone_404 fuel client zone_id
  | UntilStatus status => wait_for_zone_status fuel client zone_id status
  end.

Definition condition_text (wt : waiter) : string :=
  match wt with
  | Until404 => "failed to 404"
  | UntilStatus status => "failed to reach status=" +:+ status
  end.

Lemma message_404_parts zone_id timeout v :
  let m := message_404 zone_id timeout v in
  contains m zone_id = true /\ contains m (condition_text Until404) = true /\
  contains m (py_str v) = true /\ contains m (pretty timeout) = true.
Proof.
  unfold message_404, condition_text. repeat split.
  - apply (contains_skip "Zone "), contains_here.
  - apply (contains_skip "Zone "), contains_skip.
    apply (contains_skip " "), (contains_here "failed to 404").
  - do 5 apply contains_skip. apply contains_self.
  - do 3 apply contains_skip. apply contains_here.
Qed.

Lemma message_status_parts zone_id status timeout v :
  let m := message_status zone_id status timeout v in
  contains m zone_id = true /\
  contains m (condition_text (UntilStatus status)) = true /\
  contains m (py_str v) = true /\ contains m (pretty timeout) = true.
Proof.
  unfold message_status, condition_text. repeat split.
  - apply (contains_skip "Zone "), contains_here.
  - apply (contains_skip "Zone "), contains_skip.
    apply (contains_skip " ").
    change (contains
              (("failed to reach status=" +:+ status)
                 +:+ " within the required time (" +:+ pretty timeout
                 +:+ " s). Current status: " +:+ py_str v)
              ("failed to reach status=" +:+ status) = true).
    apply contains_here.
  - do 7 apply contains_skip. apply contains_self.
  - do 5 apply contains_skip. apply contains_here.
Qed.

(** C9 (as amended). A [TimeoutException] that a waiter raises at its
    deadline check has a message holding the zone id, the wording of the
    condition waited for, the [status] of the snapshot fetched last, the
    configured [build_timeout] (the time allowed, not the time measured)
    and, when [find_test_caller] gives a non-empty name, that name. *)
Theorem timeout_message_contents wt client zone_id fuel w e w' t :
  wait wt fuel client zone_id w = (Raise e, w') ->
  exn_class_of e = TimeoutException ->
  last (trace w') = Some (EvTime t) ->
  exists pre z v,
    trace w' = pre ++ [EvShow zone_id (inr z); EvTime t] /\
    z !! "status" = Some v /\
    contains (exn_msg e) zone_id = true /\
    contains (exn_msg e) (condition_text wt) = true /\
    contains (exn_msg e) (py_str v) = true /\
    contains (exn_msg e) (pretty (build_timeout client)) = true /\
    (forall c, find_test_caller client = Some c -> c <> EmptyString ->
               contains (exn_msg e) c = true).
Proof.
  intros Hrun Hcls Hlast. destruct wt as [|status]; simpl in Hrun.
  - apply wait_for_zone_404_run in Hrun as (evs & Htr & Hevs).
    destruct evs as [|ev evs].
    { inversion Hevs; subst; discriminate Hcls. }
    rewrite Htr, last_app_cons, last_cons_cons in Hlast.
    destruct (run_404_timeout_message _ _ _ _ _ Hevs e t eq_refl Hcls Hlast)
      as (pre & z & v & Hpre & Hst & Hmsg).
    exists (trace w ++ EvTime (clock w) :: pre), z, v.
    rewrite Htr, Hpre, Hmsg, <- app_assoc.
    destruct (message_404_parts zone_id (build_timeout client) v)
      as (? & ? & ? & ?).
    repeat split; try done; try by apply contains_with_caller.
    intros c Hc Hne. by apply contains_caller.
  - apply wait_for_zone_status_run in Hrun.
    destruct (show_reply client (shows w) zone_id (clock w)) as [took [e0|z0]].
    { destruct Hrun as [_ Htr]. rewrite Htr, last_snoc in Hlast. done. }
    destruct Hrun as (evs & Htr & Hevs).
    destruct evs as [|ev evs].
    { inversion Hevs; subst; discriminate Hcls. }
    rewrite Htr, last_app_cons in Hlast. do 2 rewrite last_cons_cons in Hlast.
    destruct (run_status_timeout_message _ _ _ _ _ _ _ Hevs e t eq_refl Hcls
                Hlast) as (pre & z & v & Hpre & Hst & Hmsg).
    exists (trace w ++ EvShow zone_id (inr z0)
              :: EvTime (clock w + Z.of_N took) :: pre), z, v.
    rewrite Htr, Hpre, Hmsg, <- app_assoc.
    destruct (message_status_parts zone_id status (build_timeout client) v)
      as (? & ? & ? & ?).
    repeat split; try done; try by apply contains_with_caller.
    intros c Hc Hne. by apply contains_caller.
Qed.

(** The zone stays PENDING and the call comes from a test. *)
Definition stuck_in_test : Client :=
  scripted 1 2 [] (inr pending) (Some "ZonesTest:test_delete_zone").

Lemma timeout_message_contents_witness :
  let run := wait (UntilStatus "ACTIVE") 8 stuck_in_test "z1" at_noon in
  let message :=
    "(ZonesTest:test_delete_zone) Zone z1 failed to reach status=ACTIVE "
      +:+ "within the required time (2 s). Current status: PENDING" in
  exists pre z v,
    trace run.2 = pre ++ [EvShow "z1" (inr z); EvTime 43202000] /\
    z !! "status" = Some v /\
    contains message "z1" = true /\
    contains message "failed to reach status=ACTIVE" = true /\
    contains message (py_str v) = true /\
    contains message (pretty 2) = true /\
    (forall c, Some "ZonesTest:test_delete_zone" = Some c ->
               c <> EmptyString -> contains message c = true).
Proof.
  intros run message.
  apply (timeout_message_contents (UntilStatus "ACTIVE") stuck_in_test "z1" 8
           at_noon (Exn TimeoutException message) run.2 43202000);
    vm_compute; reflexivity.
Defined.

(** interval 7 s, deadline 5 s, PENDING for ever: the first check comes
    7 s after the start. *)
Definition late : Client := scripted 7 5 [] (inr pending) None.

(** C9, as stated, fails: the only time in the message is the configured
    deadline.  Here the deadline is 5 s and the waiter gives up at a check
    made 7 s after the recorded start; no 7 occurs in its message. *)
Lemma timeout_message_lacks_elapsed_time :
  let run := wait_for_zone_404 3 late "z1" at_noon in
  let message :=
    "Zone z1 failed to 404 within the required time (5 s). "
      +:+ "Current status: PENDING" in
  run.1 = Raise (Exn TimeoutException message) /\
  trace run.2 = [EvTime 43200000; EvSleep 7; EvShow "z1" (inr pending);
                 EvTime 43207000] /\
  py_int 43207000 - py_int 43200000 = 7 /\
  contains message (pretty 7) = false.
Proof. vm_compute. repeat split; reflexivity. Qed.

(** ** C1: a zone that reaches the target status *)

Definition fetched (ev : event) : option zone :=
  match ev with
  | EvShow _ (inr z) => Some z
  | _ => None
  end.

(** The snapshot that the last successful fetch of a trace gave. *)
Definition last_fetched (evs : list event) : option zone :=
  last (omap fetched evs).

Lemma last_fetched_end pre evs zone_id z :
  last evs = Some (EvShow zone_id (inr z)) ->
  last_fetched (pre ++ evs) = Some z.
Proof.
  intros [l ->]%last_Some. unfold last_fetched.
  rewrite !omap_app. simpl. by rewrite app_assoc, last_snoc.
Qed.

Lemma py_int_below a k : 0 <= a -> a < k * 1000 -> py_int a < k.
Proof.
  intros Ha Hk. unfold py_int. rewrite Z.quot_div_nonneg by lia.
  Z.div_mod_to_equations. lia.
Qed.

Section Converging.
(** The service always answers, and from the instant [T] (ms) on the
    snapshots it gives have the target status. *)
Variables (client : Client) (zone_id status : string) (T : Z).
Hypothesis positive_interval : 0 < build_interval client.
Hypothesis reaches_target :
  forall n t, exists took z v,
    show_reply client n zone_id t = (took, inr z) /\
    z !! "status" = Some v /\
    (T <= t + Z.of_N took -> v = JStr status).

Lemma wait_for_zone_status_loop_converges start fuel :
  forall w z v,
    0 <= clock w ->
    T <= (start + build_timeout client) * 1000 ->
    z !! "status" = Some v ->
    (v <> JStr status -> clock w < T) ->
    T - clock w <= Z.of_nat fuel * 1000 ->
    exists w' evs,
      wait_for_zone_status_loop fuel client zone_id status start z w
      = (Val VNone, w') /\
      trace w' = trace w ++ evs /\
      ((evs = [] /\ v = JStr status) \/
       exists z', last evs = Some (EvShow zone_id (inr z')) /\
                  z' !! "status" = Some (JStr status)).
Proof.
  induction fuel as [|fuel IH]; intros w z v Hclock Hdead Hst Hbefore Hfuel.
  - assert (v = JStr status) as ->.
    { destruct (decide (v = JStr status)); [done|]. specialize (Hbefore n).
      lia. }
    exists w, []. simpl. unfold bind, getitem. rewrite Hst. unfold ret.
    rewrite (proj2 (differs_false _ _) eq_refl), app_nil_r. auto.
  - simpl. unfold bind, getitem. rewrite Hst. unfold ret at 1.
    destruct (differs v status) eqn:Hd.
    2:{ apply differs_false in Hd. exists w, [].
        rewrite app_nil_r. auto. }
    apply differs_true in Hd. specialize (Hbefore Hd).
    unfold time_sleep, show_zone.
    rewrite (proj2 (Z.ltb_ge _ _)) by lia.
    cbn [shows clock sleeps requests trace logs].
    set (t1 := clock w + build_interval client * 1000
               + Z.of_N (oversleep client (sleeps w))).
    destruct (reaches_target (shows w) t1) as (took & z' & v' & Hrep & Hst' & Hv').
    rewrite Hrep, Hst'. unfold ret at 1.
    destruct (differs v' status) eqn:Hd'; cbn [negb].
    2:{ apply differs_false in Hd'. subst v'.
        unfold log_line, ret. eexists _, _. split; [reflexivity|].
        cbn [trace]. rewrite <- app_assoc. split; [reflexivity|].
        right. by exists z'. }
    apply differs_true in Hd'.
    assert (Hnow : t1 + Z.of_N took < T).
    { destruct (Z.lt_ge_cases (t1 + Z.of_N took) T); [done|].
      by destruct Hd', Hv'. }
    unfold time_time. cbn [shows clock sleeps requests trace logs].
    rewrite (proj2 (Z.leb_gt _ _)).
    2:{ pose proof (py_int_below (t1 + Z.of_N took)
                      (start + build_timeout client)).
        subst t1. lia. }
    match goal with
    | |- context [wait_for_zone_status_loop fuel _ _ _ _ z' ?w3] =>
        destruct (IH w3 z' v') as (w' & evs & Hrun & Htr & Hend)
    end.
    { cbn [clock]. subst t1. lia. }
    { done. }
    { done. }
    { by cbn [clock]. }
    { cbn [clock]. subst t1. lia. }
    rewrite Hrun. exists w', (EvSleep (build_interval client)
                :: EvShow zone_id (inr z') :: EvTime (t1 + Z.of_N took)
                :: evs).
    split; [reflexivity|]. cbn in Htr.
    split; [by rewrite Htr, <- !app_assoc|].
    right. destruct Hend as [[-> Hv]|(z'' & Hlast & Hz)]; [done|].
    exists z''. by rewrite !last_cons, Hlast.
Qed.

End Converging.

(** A zone that is [before] until the instant [T] and [after] from then
    on, behind a service that answers at once. *)
Definition turning (interval timeout T : Z) (before after : zone) : Client :=
  mkClient interval timeout
           (fun _ _ t => (0%N, inr (if T <=? t then after else before)))
           (fun _ => 0%N) None.



(** ** C6: how many fetches a deleted zone costs *)

(** ceil(a / b), for a positive [b] *)
Definition ceil_div (a b : Z) : Z := (a + b - 1) / b.

Lemma ceil_div_step a b : 0 < b -> ceil_div a b = ceil_div (a - b) b + 1.
Proof.
  intros Hb. unfold ceil_div.
  replace (a + b - 1) with (a - b + b - 1 + 1 * b) by lia.
  rewrite Z.div_add by lia. done.
Qed.

Lemma ceil_div_one a b : 0 < a <= b -> ceil_div a b = 1.
Proof.
  intros Ha. unfold ceil_div.
  replace (a + b - 1) with (a - 1 + 1 * b) by lia.
  rewrite Z.div_add by lia. rewrite Z.div_small by lia. done.
Qed.

Lemma ceil_div_pos a b : 0 < a -> 0 < b -> 1 <= ceil_div a b.
Proof.
  intros Ha Hb. unfold ceil_div.
  replace (a + b - 1) with (a - 1 + 1 * b) by lia.
  rewrite Z.div_add by lia. pose proof (Z.div_pos (a - 1) b). lia.
Qed.

Lemma py_int_whole a k : 0 <= a -> 0 <= k -> py_int (a + 1000 * k) = py_int a + k.
Proof.
  intros Ha Hk. unfold py_int. rewrite !Z.quot_div_nonneg by lia.
  rewrite Z.mul_comm, Z.div_add by lia. done.
Qed.

Section Vanishing.
(** The zone exists until [ttd] ms after the call and is gone from then
    on; the service answers at once and no sleep oversleeps. *)
Variables (client : Client) (zone_id : string) (ttd : Z) (w : World).
Hypothesis positive_interval : 0 < build_interval client.
Hypothesis instant_replies :
  forall n t, (show_reply client n zone_id t).1 = 0%N.
Hypothesis exact_sleeps : forall n, oversleep client n = 0%N.
Hypothesis present_before :
  forall n t, t < clock w + ttd ->
              exists z, (show_reply client n zone_id t).2 = inr z.
Hypothesis gone_after :
  forall n t, clock w + ttd <= t ->
              exists e, (show_reply client n zone_id t).2 = inl e /\
                        isinstance e NotFound = true.

Lemma wait_for_zone_404_loop_count fuel :
  forall w1 m,
    0 <= clock w -> clock w1 = clock w + 1000 * m -> 0 <= m ->
    1000 * m < ttd -> ttd < build_timeout client * 1000 ->
    ceil_div (ttd - 1000 * m) (build_interval client * 1000)
    <= Z.of_nat fuel ->
    exists w',
      wait_for_zone_404_loop fuel client zone_id (py_int (clock w)) w1
      = (Val VNone, w') /\
      Z.of_nat (shows w') =
      Z.of_nat (shows w1)
      + ceil_div (ttd - 1000 * m) (build_interval client * 1000).
Proof.
  induction fuel as [|fuel IH]; intros w1 m Hw Hclock Hm Hbefore Hdead Hfuel.
  { pose proof (ceil_div_pos (ttd - 1000 * m) (build_interval client * 1000)).
    lia. }
  simpl. unfold bind, time_sleep, try_except, show_zone.
  rewrite (proj2 (Z.ltb_ge _ _)) by lia.
  cbn [shows clock sleeps requests trace logs].
  rewrite exact_sleeps.
  set (t1 := clock w1 + build_interval client * 1000 + Z.of_N 0).
  pose proof (instant_replies (shows w1) t1) as Htook.
  destruct (Z.lt_ge_cases t1 (clock w + ttd)) as [Hlt|Hge].
  - destruct (present_before (shows w1) t1 Hlt) as [z Hz].
    destruct (show_reply client (shows w1) zone_id t1) as [took reply].
    simpl in Htook, Hz. subst took reply.
    unfold ret, time_time. cbn [shows clock sleeps requests trace logs].
    assert (Ht1 : t1 + Z.of_N 0 = clock w + 1000 * (m + build_interval client)).
    { subst t1. lia. }
    rewrite Ht1, py_int_whole by lia.
    rewrite (proj2 (Z.leb_gt _ _)) by (subst t1; lia).
    match goal with
    | |- context [wait_for_zone_404_loop fuel _ _ _ ?w3] =>
        destruct (IH w3 (m + build_interval client)) as (w' & Hrun & Hcount)
    end.
    { done. }
    { done. }
    { lia. }
    { subst t1. lia. }
    { done. }
    { rewrite (ceil_div_step (ttd - 1000 * m)) in Hfuel by lia.
      replace (ttd - 1000 * (m + build_interval client))
        with (ttd - 1000 * m - build_interval client * 1000) by lia.
      lia. }
    exists w'. split; [done|]. rewrite Hcount. cbn [shows].
    rewrite (ceil_div_step (ttd - 1000 * m)) by lia.
    replace (ttd - 1000 * (m + build_interval client))
      with (ttd - 1000 * m - build_interval client * 1000) by lia.
    lia.
  - destruct (gone_after (shows w1) t1 Hge) as (e & He & Hnf).
    destruct (show_reply client (shows w1) zone_id t1) as [took reply].
    simpl in Htook, He. subst took reply. rewrite Hnf.
    unfold log_line, ret. eexists. split; [reflexivity|]. cbn [shows].
    rewrite ceil_div_one by (subst t1; lia). lia.
Qed.

(** C6 (as amended). A zone deleted [ttd] ms after the call, with
    [0 < ttd] and [ttd] short of the deadline, makes [wait_for_zone_404]
    return (given a loop budget of that many iterations) after exactly
    ceil(ttd / interval) calls of [show_zone]. *)
Theorem wait_for_zone_404_show_calls fuel :
  0 <= clock w ->
  0 < ttd ->
  ttd < build_timeout client * 1000 ->
  ceil_div ttd (build_interval client * 1000) <= Z.of_nat fuel ->
  exists w',
    wait_for_zone_404 fuel client zone_id w = (Val VNone, w') /\
    Z.of_nat (shows w') - Z.of_nat (shows w)
    = ceil_div ttd (build_interval client * 1000).
Proof.
  intros Hw Hpos Hdead Hfuel.
  unfold wait_for_zone_404, bind, log_line, time_time.
  cbn [shows clock sleeps requests trace logs].
  match goal with
  | |- context [wait_for_zone_404_loop fuel _ _ _ ?w1] =>
      destruct (wait_for_zone_404_loop_count fuel w1 0)
        as (w' & Hrun & Hcount)
  end.
  { done. }
  { cbn [clock]. lia. }
  { done. }
  { lia. }
  { done. }
  { by rewrite Z.mul_0_r, Z.sub_0_r. }
  exists w'. split; [done|]. rewrite Hcount. cbn [shows].
  rewrite Z.mul_0_r, Z.sub_0_r. lia.
Qed.
End Vanishing.

(** A zone that exists until the instant [D] (ms) and is gone from then
    on, behind a service that takes [took] ms for every answer. *)
Definition deleted_at (interval timeout D : Z) (took : N) : Client :=
  mkClient interval timeout
           (fun _ _ t => (took, if D <=? t
                                then inl (Exn NotFound "Object not found")
                                else inr active))
           (fun _ => 0%N) None.

Lemma wait_for_zone_404_show_calls_witness :
  exists w',
    wait_for_zone_404 8 (deleted_at 1 10 43202500 0) "z1" at_noon
    = (Val VNone, w') /\
    Z.of_nat (shows w') - Z.of_nat (shows at_noon) = ceil_div 2500 (1 * 1000).
Proof.
  apply (wait_for_zone_404_show_calls (deleted_at 1 10 43202500 0) "z1" 2500
           at_noon).
  - reflexivity.
  - reflexivity.
  - reflexivity.
  - intros n t Ht. cbn [deleted_at show_reply snd at_noon clock] in *.
    rewrite (proj2 (Z.leb_gt _ _)) by lia. by eexists.
  - intros n t Ht. cbn [deleted_at show_reply snd at_noon clock] in *.
    rewrite (proj2 (Z.leb_le _ _)) by lia. by eexists.
  - discriminate.
  - reflexivity.
  - reflexivity.
  - vm_compute. discriminate.
Defined.

(** C6, as stated, fails.  At a time to deletion of 0 the formula gives
    ceil(0 / 1) = 0 calls, but the loop always fetches once before it can
    see the zone gone.  And the formula counts on fetches that take no
    time: with a service that needs 1.5 s per answer, a zone deleted 2.5 s
    after the call is seen gone at the second fetch, not at the third. *)
Lemma wait_for_zone_404_show_calls_off_formula :
  let now_gone := deleted_at 1 10 43200000 0 in
  let slow := deleted_at 1 10 43202500 1500 in
  let run := wait_for_zone_404 8 now_gone "z1" at_noon in
  let run_slow := wait_for_zone_404 8 slow "z1" at_noon in
  (0 <= 0 < build_timeout now_gone * 1000 /\
   run.1 = Val VNone /\
   shows run.2 = 1%nat /\
   ceil_div 0 (build_interval now_gone * 1000) = 0) /\
  (0 <= 2500 < build_timeout slow * 1000 /\
   run_slow.1 = Val VNone /\
   shows run_slow.2 = 2%nat /\
   ceil_div 2500 (build_interval slow * 1000) = 3).
Proof. vm_compute. repeat split; try reflexivity; discriminate. Qed.

(** ** C7 and C10: handle_errors *)

(** The wrapped function gets the keyword arguments without
    [ignore_errors], whether or not the caller gave one. *)
Lemma handle_errors_unfold (f : pyfun) args (kwargs : gmap string value) w :
  handle_errors f args kwargs w =
  match f args (delete "ignore_errors" kwargs) w with
  | (Raise e, w') =>
      match except_classes
              (default (VTuple []) (kwargs !! "ignore_errors")) with
      | Some classes =>
          if existsb (isinstance e) classes
          then (Val VNone,
                mkWorld (clock w') (shows w') (sleeps w') (requests w')
                        (trace w')
                        (logs w' ++ ["Ignoring exception of type "
                                       +:+ type_repr e +:+ ", as requested"]))
          else (Raise e, w')
      | None =>
          (Raise (Exn TypeError
                    ("catching classes that do not inherit from "
                       +:+ "BaseException is not allowed")), w')
      end
  | other => other
  end.
Proof.
  unfold handle_errors.
  destruct (kwargs !! "ignore_errors") as [spec|] eqn:Hspec.
  - rewrite bool_decide_eq_true_2 by eauto. reflexivity.
  - rewrite bool_decide_eq_false_2 by (by intros [? ?]).
    rewrite (delete_id _ _ Hspec). reflexivity.
Qed.

(** The world after the wrapper noted that it ignored [e]. *)
Definition noted (w : World) (e : exn) : World :=
  mkWorld (clock w) (shows w) (sleeps w) (requests w) (trace w)
          (logs w ++ ["Ignoring exception of type " +:+ type_repr e
                        +:+ ", as requested"]).

(** C7. Let the wrapped function raise [e].  When the call names, under
    [ignore_errors], a class or a tuple of classes and [e] is an instance
    of one of them (the test an [except] clause makes), the wrapper
    returns [None] and raises nothing.  When [e] is an instance of none of
    them, or the call has no [ignore_errors], [e] goes on to the caller.
    Nothing is kept between calls: in the world a suppressing call leaves,
    a call without [ignore_errors] hands up whatever is raised. *)
Theorem handle_errors_suppression (f : pyfun) args
    (kwargs : gmap string value) w e w' :
  f args (delete "ignore_errors" kwargs) w = (Raise e, w') ->
  (forall spec classes,
     kwargs !! "ignore_errors" = Some spec ->
     except_classes spec = Some classes ->
     existsb (isinstance e) classes = true ->
     handle_errors f args kwargs w = (Val VNone, noted w' e) /\
     forall args2 (kwargs2 : gmap string value) e2 w2,
       kwargs2 !! "ignore_errors" = None ->
       f args2 kwargs2 (noted w' e) = (Raise e2, w2) ->
       handle_errors f args2 kwargs2 (noted w' e) = (Raise e2, w2)) /\
  (forall spec classes,
     kwargs !! "ignore_errors" = Some spec ->
     except_classes spec = Some classes ->
     existsb (isinstance e) classes = false ->
     handle_errors f args kwargs w = (Raise e, w')) /\
  (kwargs !! "ignore_errors" = None ->
   handle_errors f args kwargs w = (Raise e, w')).
Proof.
  intros Hf. split; [|split].
  - intros spec classes Hspec Hcls Hyes. split.
    + rewrite handle_errors_unfold, Hf, Hspec. simpl. by rewrite Hcls, Hyes.
    + intros args2 kwargs2 e2 w2 Hnone Hf2.
      by rewrite handle_errors_unfold, (delete_id _ _ Hnone), Hf2, Hnone.
  - intros spec classes Hspec Hcls Hno.
    rewrite handle_errors_unfold, Hf, Hspec. simpl. by rewrite Hcls, Hno.
  - intros Hnone. by rewrite handle_errors_unfold, Hf, Hnone.
Qed.

(** A decorated client method that finds nothing; it refuses keyword
    arguments it does not know. *)
Definition show_missing : pyfun :=
  fun _ kwargs =>
    if bool_decide (kwargs = ∅)
    then raise (Exn NotFound "Object not found")
    else raise (Exn TypeError "got an unexpected keyword argument").

Lemma handle_errors_suppression_witness :
  let kwargs : gmap string value :=
    {[ "ignore_errors" := VTuple [VClass Conflict;
                                  VClass ClientRestClientException] ]} in
  let e := Exn NotFound "Object not found" in
  handle_errors show_missing [VStr "z1"] kwargs at_noon
  = (Val VNone, noted at_noon e) /\
  handle_errors show_missing [VStr "z1"] ∅ (noted at_noon e)
  = (Raise e, noted at_noon e).
Proof.
  intros kwargs e.
  destruct (handle_errors_suppression show_missing [VStr "z1"] kwargs
              at_noon e at_noon) as (Hlisted & _ & _).
  { vm_compute. reflexivity. }
  destruct (Hlisted (VTuple [VClass Conflict; VClass ClientRestClientException])
                    [Conflict; ClientRestClientException])
    as [Hnone Hnext]; [vm_compute; reflexivity..|].
  split; [exact Hnone|]. apply Hnext; vm_compute; reflexivity.
Defined.

(** C10. When the wrapped function returns, called with the positional
    arguments as given and the keyword arguments less [ignore_errors],
    the wrapper returns that very value in that very world; the keyword
    arguments it passed have no [ignore_errors] and agree with the
    caller's on every other name. *)
Theorem handle_errors_passes_through (f : pyfun) args
    (kwargs : gmap string value) w v w' :
  f args (delete "ignore_errors" kwargs) w = (Val v, w') ->
  handle_errors f args kwargs w = (Val v, w') /\
  delete "ignore_errors" kwargs !! "ignore_errors" = None /\
  (forall name, name <> "ignore_errors" ->
                delete "ignore_errors" kwargs !! name = kwargs !! name).
Proof.
  intros Hf. split; [|split].
  - by rewrite handle_errors_unfold, Hf.
  - apply lookup_delete_eq.
  - intros name Hne. by apply lookup_delete_ne.
Qed.

(** A decorated method that hands back what it was called with: its
    first positional argument and whether [ignore_errors] reached it. *)
Definition echo : pyfun :=
  fun args kwargs =>
    ret (VTuple [default VNone (head args);
                 default (VStr "absent") (kwargs !! "ignore_errors");
                 default VNone (kwargs !! "params")]).

Lemma handle_errors_passes_through_witness :
  let kwargs : gmap string value :=
    {[ "ignore_errors" := VClass NotFound; "params" := VStr "limit=1" ]} in
  handle_errors echo [VStr "z1"] kwargs at_noon
  = (Val (VTuple [VStr "z1"; VStr "absent"; VStr "limit=1"]), at_noon) /\
  delete "ignore_errors" kwargs !! "ignore_errors" = None /\
  (forall name, name <> "ignore_errors" ->
                delete "ignore_errors" kwargs !! name = kwargs !! name).
Proof.
  intros kwargs.
  apply (handle_errors_passes_through echo [VStr "z1"] kwargs at_noon).
  vm_compute. reflexivity.
Defined.

(** ** C8: status codes of create, show and delete *)

(** What Python 3 raises for [read_code < 400] with a [str] on the left. *)
Definition str_below_int : exn :=
  Exn TypeError "'<' not supported between instances of 'str' and 'int'".

(** The status check as the three operations write it,
    [self.expected_success(codes, resp['status'])], is handed the [str]
    member of the response and ends in a [TypeError], whatever the status
    code. *)
Lemma expected_success_of_item x resp w :
  expected_success x (status_item resp) w = (Raise str_below_int, w).
Proof. reflexivity. Qed.

Lemma request_then_check c method uri sent x w code body :
  rest_call c (requests w) method uri sent = inr (code, body) ->
  ((reply <- request c method uri sent ;;
    expected_success x (status_item reply.1) ;;;
    obj <- deserialize c reply.2 ;;
    ret (reply.1, obj)) w).1 = Raise str_below_int.
Proof.
  intros Hreply. unfold bind, request. rewrite Hreply.
  cbn [fst]. by rewrite expected_success_of_item.
Qed.

(** C8. The code does not keep the contract.  Whenever the REST layer
    returns a response, with any status [code] and any [body], create,
    show and delete all end in the [TypeError] of the status check, before
    the body is decoded: the check is given [resp['status']], a [str],
    where it compares with an [int].  So a create answered with 201 or
    202, a show answered with 200 and a delete answered with 202 or 204
    do not succeed, and a code that is not accepted does not give an
    error of the service either. *)
Theorem returned_response_ends_in_TypeError c w resource object_dict uuid
    params code body :
  (forall method uri sent,
     rest_call c (requests w) method uri sent = inr (code, body)) ->
  (_create_request c resource object_dict params w).1 = Raise str_below_int /\
  (_show_request c resource uuid params w).1 = Raise str_below_int /\
  (_delete_request c resource uuid params w).1 = Raise str_below_int.
Proof.
  intros Hreply. split; [|split].
  - by apply (request_then_check c "POST" _ _ (AnyOf [201; 202]) w code body).
  - by apply (request_then_check c "GET" _ _ (One 200) w code body).
  - by apply (request_then_check c "DELETE" _ _ (AnyOf [202; 204]) w code body).
Qed.

(** A decoder for the bodies of the scenarios below: the empty object
    decodes, the other bodies used are not JSON. *)
Definition loads_scenario (s : string) : option zone :=
  if String.eqb s "{}" then Some ∅ else None.

(** A service whose every answer comes back from the REST layer with one
    status and body. *)
Definition answering (code : Z) (body : string) : RestClient :=
  mkRestClient "v2" (fun _ => "{}") loads_scenario
               (fun _ => EmptyString)
               (fun _ _ _ _ => inr (code, body)).

(** A create answered with 201 and a body that decodes. *)
Lemma returned_response_ends_in_TypeError_witness :
  let c := answering 201 "{}" in
  (_create_request c "zones" ∅ None at_noon).1 = Raise str_below_int /\
  (_show_request c "zones" "z1" None at_noon).1 = Raise str_below_int /\
  (_delete_request c "zones" "z1" None at_noon).1 = Raise str_below_int.
Proof.
  intros c.
  apply (returned_response_ends_in_TypeError c at_noon "zones" ∅ "z1" None
           201 "{}").
  reflexivity.
Defined.

(** Each accepted code at its own operation, with a body that decodes. *)
Lemma accepted_codes_refused :
  (_create_request (answering 202 "{}") "zones" ∅ None at_noon).1
  = Raise str_below_int /\
  (_show_request (answering 200 "{}") "zones" "z1" None at_noon).1
  = Raise str_below_int /\
  (_delete_request (answering 202 "{}") "zones" "z1" None at_noon).1
  = Raise str_below_int /\
  (_delete_request (answering 204 EmptyString) "zones" "z1" None at_noon).1
  = Raise str_below_int.
Proof. repeat split. Qed.

(** * Further properties of the waiters *)

(** ** One fetch per sleep *)

(** An action a waiter takes on its own account: a sleep of exactly
    [build_interval], a fetch of the zone it was given, a clock reading. *)
Definition own_action (client : Client) (zone_id : string) (ev : event)
  : Prop :=
  match ev with
  | EvTime _ => True
  | EvSleep secs => secs = build_interval client
  | EvShow id _ => id = zone_id
  | EvRequest _ _ _ _ => False
  end.

Definition fetches (evs : list event) : nat :=
  length (List.filter
            (fun ev => match ev with EvShow _ _ => true | _ => false end) evs).

Lemma run_404_paced client zone_id start evs r :
  run_404 client zone_id start evs r ->
  Forall (own_action client zone_id) evs /\
  fetches evs = iterations_begun evs.
Proof.
  induction 1 as [| | | | | |z t rest r ? ? ? [IHall IHn]];
    try (split; [repeat constructor|reflexivity]).
  split; [by repeat constructor|].
  unfold fetches, iterations_begun in *. simpl. by rewrite IHn.
Qed.

Lemma run_status_paced client zone_id status start z evs r :
  run_status client zone_id status start z evs r ->
  Forall (own_action client zone_id) evs /\
  fetches evs = iterations_begun evs.
Proof.
  induction 1 as [| | | | | | | |? ? ? ? ? ? ? ? ? ? ? ? ? [IHall IHn]];
    try (split; [repeat constructor|reflexivity]).
  split; [by repeat constructor|].
  unfold fetches, iterations_begun in *. simpl. by rewrite IHn.
Qed.

(** X1. Whatever the service does and however a wait ends, the waiter
    only sleeps for [build_interval], fetches the zone it was given and
    reads the clock.  [wait_for_zone_404] fetches exactly as often as it
    sleeps (no fetch without its sleep before it); [wait_for_zone_status]
    makes one fetch more, the first one. *)
Theorem waiters_fetch_once_per_sleep client zone_id status fuel w r1 w1 r2 w2 :
  wait_for_zone_404 fuel client zone_id w = (r1, w1) ->
  wait_for_zone_status fuel client zone_id status w = (r2, w2) ->
  exists evs1 evs2,
    trace w1 = trace w ++ evs1 /\
    trace w2 = trace w ++ evs2 /\
    Forall (own_action client zone_id) evs1 /\
    Forall (own_action client zone_id) evs2 /\
    fetches evs1 = iterations_begun evs1 /\
    fetches evs2 = S (iterations_begun evs2).
Proof.
  intros H404 Hst.
  apply wait_for_zone_404_run in H404 as (evs & Htr & Hevs).
  apply run_404_paced in Hevs as [Hall Hn].
  apply wait_for_zone_status_run in Hst.
  exists (EvTime (clock w) :: evs).
  destruct (show_reply client (shows w) zone_id (clock w)) as [took [e0|z]].
  - destruct Hst as [_ Htr2]. exists [EvShow zone_id (inl e0)].
    repeat split; try done; by repeat constructor.
  - destruct Hst as (evs2 & Htr2 & Hevs2).
    apply run_status_paced in Hevs2 as [Hall2 Hn2].
    exists (EvShow zone_id (inr z) :: EvTime (clock w + Z.of_N took) :: evs2).
    repeat split; try done; try by repeat constructor.
    unfold fetches, iterations_begun in *. simpl. by rewrite Hn2.
Qed.

Lemma waiters_fetch_once_per_sleep_witness :
  let run1 := wait_for_zone_404 10 converging "z1" at_noon in
  let run2 := wait_for_zone_status 10 converging "z1" "ACTIVE" at_noon in
  exists evs1 evs2,
    trace run1.2 = trace at_noon ++ evs1 /\
    trace run2.2 = trace at_noon ++ evs2 /\
    Forall (own_action converging "z1") evs1 /\
    Forall (own_action converging "z1") evs2 /\
    fetches evs1 = iterations_begun evs1 /\
    fetches evs2 = S (iterations_begun evs2).
Proof.
  intros run1 run2.
  apply (waiters_fetch_once_per_sleep converging "z1" "ACTIVE" 10 at_noon
           run1.1 run1.2 run2.1 run2.2);
    vm_compute; reflexivity.
Defined.

(** ** A condition that is never met *)

Lemma py_int_advance_by a d k :
  0 <= a -> 0 <= k -> 1000 * k <= d -> py_int a + k <= py_int (a + d).
Proof.
  intros Ha Hk Hd. unfold py_int. rewrite !Z.quot_div_nonneg by lia.
  Z.div_mod_to_equations. lia.
Qed.

Lemma ceil_div_mono a a' b : 0 < b -> a <= a' -> ceil_div a b <= ceil_div a' b.
Proof.
  intros Hb Ha. unfold ceil_div. apply Z.div_le_mono; lia.
Qed.

Section NeverGone.
(** The zone is never deleted: every fetch gives a snapshot with its
    [status]. *)
Variables (client : Client) (zone_id : string).
Hypothesis positive_interval : 0 < build_interval client.
Hypothesis always_present :
  forall n t, exists took z v,
    show_reply client n zone_id t = (took, inr z) /\ z !! "status" = Some v.

Lemma wait_for_zone_404_loop_expires start fuel :
  forall w,
    0 <= clock w ->
    Z.max 1 (ceil_div (build_timeout client - (py_int (clock w) - start))
                      (build_interval client))
    <= Z.of_nat fuel ->
    exists w' pre z v t,
      wait_for_zone_404_loop fuel client zone_id start w
      = (Raise (Exn TimeoutException
                  (with_caller client
                     (message_404 zone_id (build_timeout client) v))), w') /\
      trace w' = trace w ++ pre ++ [EvShow zone_id (inr z); EvTime t] /\
      z !! "status" = Some v /\
      build_timeout client <= py_int t - start /\
      Z.of_nat (shows w') - Z.of_nat (shows w)
      <= Z.max 1 (ceil_div (build_timeout client
                            - (py_int (clock w) - start))
                           (build_interval client)).
Proof.
  induction fuel as [|fuel IH]; intros w Hclock Hfuel; [lia|].
  simpl. unfold bind, time_sleep, try_except, show_zone.
  rewrite (proj2 (Z.ltb_ge _ _)) by lia.
  cbn [shows clock sleeps requests trace logs].
  set (t1 := clock w + build_interval client * 1000
             + Z.of_N (oversleep client (sleeps w))).
  destruct (always_present (shows w) t1) as (took & z & v & Hrep & Hst).
  rewrite Hrep. unfold ret, time_time.
  cbn [shows clock sleeps requests trace logs].
  set (now := t1 + Z.of_N took).
  assert (Hnow : py_int (clock w) + build_interval client <= py_int now).
  { subst now t1. rewrite <- !Z.add_assoc. apply py_int_advance_by; lia. }
  set (left_ := build_timeout client - (py_int (clock w) - start)) in *.
  destruct (build_timeout client <=? py_int now - start) eqn:Hexp.
  - unfold getitem. rewrite Hst. unfold ret, raise.
    eexists _, [EvSleep (build_interval client)], z, v, now.
    split; [reflexivity|]. cbn [trace shows].
    rewrite <- !app_assoc. repeat split; try done; lia.
  - apply Z.leb_gt in Hexp.
    assert (Hstep : ceil_div left_ (build_interval client)
                    = ceil_div (left_ - build_interval client)
                               (build_interval client) + 1)
      by (by apply ceil_div_step).
    pose proof (ceil_div_mono
                  (build_timeout client - (py_int now - start))
                  (left_ - build_interval client)
                  (build_interval client) positive_interval) as Hmono.
    pose proof (ceil_div_pos
                  (build_timeout client - (py_int now - start))
                  (build_interval client)) as Hpos.
    match goal with
    | |- context [wait_for_zone_404_loop fuel _ _ _ ?w3] =>
        destruct (IH w3) as (w' & pre & z' & v' & t & Hrun & Htr & Hz & Ht & Hn)
    end.
    { cbn [clock]. subst now t1. lia. }
    { cbn [clock]. fold now. subst left_. lia. }
    rewrite Hrun.
    exists w', (EvSleep (build_interval client) :: EvShow zone_id (inr z)
                  :: EvTime now :: pre), z', v', t.
    split; [reflexivity|]. cbn [trace shows clock] in Htr, Hn.
    fold now in Hn. split; [by rewrite Htr, <- !app_assoc|].
    repeat split; try done. subst left_. lia.
Qed.

(** X2. For a zone that is never deleted (every fetch gives a snapshot
    with its [status]) and a positive interval, [wait_for_zone_404] raises
    its [TimeoutException], at a clock reading at or past the deadline,
    with the status fetched last in the message; it does so after no more
    than max(1, ceil(build_timeout / build_interval)) fetches, whatever
    the service's delays, and a loop budget of that many iterations is
    enough. *)
Theorem wait_for_zone_404_expires fuel w :
  0 <= clock w ->
  Z.max 1 (ceil_div (build_timeout client) (build_interval client))
  <= Z.of_nat fuel ->
  exists w' evs z v t,
    wait_for_zone_404 fuel client zone_id w
    = (Raise (Exn TimeoutException
                (with_caller client
                   (message_404 zone_id (build_timeout client) v))), w') /\
    trace w' = trace w ++ evs /\
    last evs = Some (EvTime t) /\
    build_timeout client <= py_int t - py_int (clock w) /\
    last_fetched evs = Some z /\
    z !! "status" = Some v /\
    Z.of_nat (shows w') - Z.of_nat (shows w)
    <= Z.max 1 (ceil_div (build_timeout client) (build_interval client)).
Proof.
  intros Hclock Hfuel.
  unfold wait_for_zone_404, bind, log_line, time_time.
  cbn [shows clock sleeps requests trace logs].
  match goal with
  | |- context [wait_for_zone_404_loop fuel _ _ _ ?w1] =>
      destruct (wait_for_zone_404_loop_expires (py_int (clock w)) fuel w1)
        as (w' & pre & z & v & t & Hrun & Htr & Hz & Ht & Hn)
  end.
  { done. }
  { cbn [clock]. by rewrite Z.sub_diag, Z.sub_0_r. }
  cbn [clock shows trace] in Htr, Hn. rewrite Z.sub_diag, Z.sub_0_r in Hn.
  exists w', (EvTime (clock w) :: pre ++ [EvShow zone_id (inr z); EvTime t]),
    z, v, t.
  rewrite Hrun. split; [done|]. split; [by rewrite Htr, <- app_assoc|].
  repeat split; try done.
  - apply last_Some.
    exists (EvTime (clock w) :: pre ++ [EvShow zone_id (inr z)]).
    simpl. by rewrite <- app_assoc.
  - unfold last_fetched. rewrite app_comm_cons, omap_app. simpl.
    apply last_snoc.
Qed.
End NeverGone.

Lemma wait_for_zone_404_expires_witness :
  exists w' evs z v t,
    wait_for_zone_404 4 stuck_in_test "z1" at_noon
    = (Raise (Exn TimeoutException
                (with_caller stuck_in_test (message_404 "z1" 2 v))), w') /\
    trace w' = trace at_noon ++ evs /\
    last evs = Some (EvTime t) /\
    2 <= py_int t - py_int (clock at_noon) /\
    last_fetched evs = Some z /\
    z !! "status" = Some v /\
    Z.of_nat (shows w') - Z.of_nat (shows at_noon)
    <= Z.max 1 (ceil_div 2 1).
Proof.
  apply (wait_for_zone_404_expires stuck_in_test "z1").
  - reflexivity.
  - intros n t. by exists 0%N, pending, (JStr "PENDING").
  - discriminate.
  - vm_compute. discriminate.
Defined.

Section NeverReached.
(** The zone never has the target status: every fetch gives a snapshot
    with another [status]. *)
Variables (client : Client) (zone_id status : string).
Hypothesis positive_interval : 0 < build_interval client.
Hypothesis never_reached :
  forall n t, exists took z v,
    show_reply client n zone_id t = (took, inr z) /\
    z !! "status" = Some v /\ v <> JStr status.

Lemma wait_for_zone_status_loop_expires start fuel :
  forall w z0 v0,
    z0 !! "status" = Some v0 -> v0 <> JStr status ->
    0 <= clock w ->
    Z.max 1 (ceil_div (build_timeout client - (py_int (clock w) - start))
                      (build_interval client))
    <= Z.of_nat fuel ->
    exists w' pre z v t,
      wait_for_zone_status_loop fuel client zone_id status start z0 w
      = (Raise (Exn TimeoutException
                  (with_caller client
                     (message_status zone_id status (build_timeout client)
                                     v))), w') /\
      trace w' = trace w ++ pre ++ [EvShow zone_id (inr z); EvTime t] /\
      z !! "status" = Some v /\
      build_timeout client <= py_int t - start /\
      Z.of_nat (shows w') - Z.of_nat (shows w)
      <= Z.max 1 (ceil_div (build_timeout client
                            - (py_int (clock w) - start))
                           (build_interval client)).
Proof.
  induction fuel as [|fuel IH]; intros w z0 v0 Hz0 Hv0 Hclock Hfuel; [lia|].
  simpl. unfold bind, getitem. rewrite Hz0. unfold ret at 1.
  rewrite (proj2 (differs_true _ _) Hv0).
  unfold time_sleep, show_zone.
  rewrite (proj2 (Z.ltb_ge _ _)) by lia.
  cbn [shows clock sleeps requests trace logs].
  set (t1 := clock w + build_interval client * 1000
             + Z.of_N (oversleep client (sleeps w))).
  destruct (never_reached (shows w) t1) as (took & z & v & Hrep & Hst & Hv).
  rewrite Hrep, Hst. unfold ret at 1.
  rewrite (proj2 (differs_true _ _) Hv). cbn [negb].
  unfold time_time. cbn [shows clock sleeps requests trace logs].
  set (now := t1 + Z.of_N took).
  assert (Hnow : py_int (clock w) + build_interval client <= py_int now).
  { subst now t1. rewrite <- !Z.add_assoc. apply py_int_advance_by; lia. }
  set (left_ := build_timeout client - (py_int (clock w) - start)) in *.
  destruct (build_timeout client <=? py_int now - start) eqn:Hexp.
  - unfold raise.
    eexists _, [EvSleep (build_interval client)], z, v, now.
    split; [reflexivity|]. cbn [trace shows].
    rewrite <- !app_assoc. repeat split; try done; lia.
  - apply Z.leb_gt in Hexp.
    assert (Hstep : ceil_div left_ (build_interval client)
                    = ceil_div (left_ - build_interval client)
                               (build_interval client) + 1)
      by (by apply ceil_div_step).
    pose proof (ceil_div_mono
                  (build_timeout client - (py_int now - start))
                  (left_ - build_interval client)
                  (build_interval client) positive_interval) as Hmono.
    pose proof (ceil_div_pos
                  (build_timeout client - (py_int now - start))
                  (build_interval client)) as Hpos.
    match goal with
    | |- context [wait_for_zone_status_loop fuel _ _ _ _ z ?w3] =>
        destruct (IH w3 z v Hst Hv)
          as (w' & pre & z' & v' & t & Hrun & Htr & Hz & Ht & Hn)
    end.
    { cbn [clock]. subst now t1. lia. }
    { cbn [clock]. fold now. subst left_. lia. }
    rewrite Hrun.
    exists w', (EvSleep (build_interval client) :: EvShow zone_id (inr z)
                  :: EvTime now :: pre), z', v', t.
    split; [reflexivity|]. cbn [trace shows clock] in Htr, Hn.
    fold now in Hn. split; [by rewrite Htr, <- !app_assoc|].
    repeat split; try done. subst left_. lia.
Qed.

(** X3. For a zone that never has the target status (every fetch gives a
    snapshot with another [status]) and a positive interval,
    [wait_for_zone_status] raises its [TimeoutException], at a clock
    reading at or past the deadline counted from the start recorded after
    the first fetch, with the status fetched last in the message; it makes
    no more than 1 + max(1, ceil(build_timeout / build_interval)) fetches,
    and a loop budget of max(1, ceil(build_timeout / build_interval))
    iterations is enough. *)
Theorem wait_for_zone_status_expires fuel w :
  0 <= clock w ->
  Z.max 1 (ceil_div (build_timeout client) (build_interval client))
  <= Z.of_nat fuel ->
  exists w' evs z v t,
    wait_for_zone_status fuel client zone_id status w
    = (Raise (Exn TimeoutException
                (with_caller client
                   (message_status zone_id status (build_timeout client)
                                   v))), w') /\
    trace w' = trace w ++ evs /\
    last evs = Some (EvTime t) /\
    build_timeout client
    <= py_int t
       - py_int (clock w
                 + Z.of_N (show_reply client (shows w) zone_id (clock w)).1) /\
    last_fetched evs = Some z /\
    z !! "status" = Some v /\
    Z.of_nat (shows w') - Z.of_nat (shows w)
    <= 1 + Z.max 1 (ceil_div (build_timeout client) (build_interval client)).
Proof.
  intros Hclock Hfuel.
  unfold wait_for_zone_status, bind, log_line, show_zone, time_time.
  cbn [shows clock sleeps requests trace logs].
  destruct (never_reached (shows w) (clock w))
    as (took & z0 & v0 & Hrep & Hz0 & Hv0).
  rewrite Hrep. cbn [fst]. cbn [shows clock sleeps requests trace logs].
  match goal with
  | |- context [wait_for_zone_status_loop fuel _ _ _ ?s z0 ?w1] =>
      destruct (wait_for_zone_status_loop_expires s fuel w1 z0 v0 Hz0 Hv0)
        as (w' & pre & z & v & t & Hrun & Htr & Hz & Ht & Hn)
  end.
  { cbn [clock]. lia. }
  { cbn [clock]. by rewrite Z.sub_diag, Z.sub_0_r. }
  cbn [clock shows trace] in Htr, Hn. rewrite Z.sub_diag, Z.sub_0_r in Hn.
  exists w', (EvShow zone_id (inr z0) :: EvTime (clock w + Z.of_N took)
                :: pre ++ [EvShow zone_id (inr z); EvTime t]), z, v, t.
  rewrite Hrun. split; [done|]. split; [by rewrite Htr, <- !app_assoc|].
  repeat split; try done.
  - apply last_Some.
    exists (EvShow zone_id (inr z0) :: EvTime (clock w + Z.of_N took)
              :: pre ++ [EvShow zone_id (inr z)]).
    simpl. by rewrite <- app_assoc.
  - unfold last_fetched. rewrite !app_comm_cons, omap_app. simpl.
    rewrite app_comm_cons. apply last_snoc.
  - lia.
Qed.
End NeverReached.

Lemma wait_for_zone_status_expires_witness :
  exists w' evs z v t,
    wait_for_zone_status 4 stuck_in_test "z1" "ACTIVE" at_noon
    = (Raise (Exn TimeoutException
                (with_caller stuck_in_test
                   (message_status "z1" "ACTIVE" 2 v))), w') /\
    trace w' = trace at_noon ++ evs /\
    last evs = Some (EvTime t) /\
    2 <= py_int t - py_int (clock at_noon + Z.of_N 0) /\
    last_fetched evs = Some z /\
    z !! "status" = Some v /\
    Z.of_nat (shows w') - Z.of_nat (shows at_noon)
    <= 1 + Z.max 1 (ceil_div 2 1).
Proof.
  apply (wait_for_zone_status_expires stuck_in_test "z1" "ACTIVE").
  - reflexivity.
  - intros n t. by exists 0%N, pending, (JStr "PENDING").
  - discriminate.
  - vm_compute. discriminate.
Defined.

(** ** The least a 404 wait takes *)

Lemma wait_for_zone_404_loop_forward client zone_id start fuel :
  forall w,
    0 <= build_interval client ->
    clock w <= clock (wait_for_zone_404_loop fuel client zone_id start w).2 /\
    (sleeps w <= sleeps (wait_for_zone_404_loop fuel client zone_id start w).2)%nat.
Proof.
  induction fuel as [|fuel IH]; intros w Hint; simpl; [done|].
  unfold bind, time_sleep, try_except, show_zone.
  rewrite (proj2 (Z.ltb_ge _ _)) by lia.
  cbn [shows clock sleeps requests trace logs].
  destruct (show_reply client (shows w) zone_id _) as [took [e|z]].
  - destruct (isinstance e NotFound); simpl; lia.
  - unfold ret, time_time. cbn [shows clock sleeps requests trace logs].
    destruct (build_timeout client <=? _).
    + unfold getitem. destruct (z !! "status"); simpl; lia.
    + match goal with
      | |- context [wait_for_zone_404_loop fuel _ _ _ ?w3] =>
          destruct (IH w3 Hint) as [Hc Hs]
      end.
      cbn [clock sleeps] in Hc, Hs. lia.
Qed.

(** X4. [wait_for_zone_404] sleeps before it fetches: whenever it gets
    to run its loop (a non-negative interval, a loop budget of at least
    one iteration), the call ends, however it ends and even for a zone
    that was gone all along, no sooner than [build_interval] seconds
    after it began. *)
Theorem wait_for_zone_404_takes_an_interval client zone_id fuel w r w' :
  0 <= build_interval client ->
  (0 < fuel)%nat ->
  wait_for_zone_404 fuel client zone_id w = (r, w') ->
  clock w + build_interval client * 1000 <= clock w' /\
  (sleeps w < sleeps w')%nat.
Proof.
  intros Hint Hfuel. destruct fuel as [|fuel]; [lia|].
  unfold wait_for_zone_404, bind, log_line, time_time.
  cbn [shows clock sleeps requests trace logs]. simpl.
  unfold bind, time_sleep, try_except, show_zone.
  rewrite (proj2 (Z.ltb_ge _ _)) by lia.
  cbn [shows clock sleeps requests trace logs].
  destruct (show_reply client (shows w) zone_id _) as [took [e|z]].
  - destruct (isinstance e NotFound); intros [= <- <-]; simpl; lia.
  - unfold ret, time_time. cbn [shows clock sleeps requests trace logs].
    destruct (build_timeout client <=? _).
    + unfold getitem. destruct (z !! "status"); intros [= <- <-]; simpl; lia.
    + match goal with
      | |- context [wait_for_zone_404_loop fuel _ _ _ ?w3] =>
          destruct (wait_for_zone_404_loop_forward client zone_id
                      (py_int (clock w)) fuel w3 Hint) as [Hc Hs]
      end.
      intros Hrun. rewrite Hrun in Hc, Hs. cbn [clock sleeps snd] in Hc, Hs.
      lia.
Qed.

Lemma wait_for_zone_404_takes_an_interval_witness :
  let gone := deleted_at 3 10 0 0 in
  let run := wait_for_zone_404 5 gone "z1" at_noon in
  clock at_noon + build_interval gone * 1000 <= clock run.2 /\
  (sleeps at_noon < sleeps run.2)%nat.
Proof.
  intros gone run.
  apply (wait_for_zone_404_takes_an_interval gone "z1" 5 at_noon run.1).
  - discriminate.
  - apply Nat.lt_0_succ.
  - vm_compute. reflexivity.
Defined.

(** * Further properties of base.py *)

(** ** handle_errors, composed *)

Lemma handle_errors_without (f : pyfun) args (kwargs : gmap string value) w :
  kwargs !! "ignore_errors" = None ->
  handle_errors f args kwargs w = f args kwargs w.
Proof.
  intros Hnone. rewrite handle_errors_unfold, (delete_id _ _ Hnone), Hnone.
  by destruct (f args kwargs w) as [[v|e|] w'].
Qed.

(** X5. Decorating twice is decorating once: the outer wrapper takes
    [ignore_errors] away, so the inner one never has anything to ignore,
    and the two together act on every call as a single [handle_errors]. *)
Theorem handle_errors_twice (f : pyfun) args (kwargs : gmap string value) w :
  handle_errors (handle_errors f) args kwargs w = handle_errors f args kwargs w.
Proof.
  rewrite (handle_errors_unfold (handle_errors f)).
  rewrite (handle_errors_without f) by apply lookup_delete_eq.
  by rewrite <- handle_errors_unfold.
Qed.

(** X6. With [ignore_errors=Exception] the decorated call swallows
    whatever derives from [Exception] and gives [None]; the built-ins
    that derive from [BaseException] alone, [KeyboardInterrupt],
    [SystemExit] and [GeneratorExit], come out of it as they were
    raised. *)
Theorem handle_errors_ignoring_Exception (f : pyfun) args
    (kwargs : gmap string value) w e w' :
  kwargs !! "ignore_errors" = Some (VClass Exception) ->
  f args (delete "ignore_errors" kwargs) w = (Raise e, w') ->
  (isinstance e Exception = true ->
   handle_errors f args kwargs w = (Val VNone, noted w' e)) /\
  (exn_class_of e ∈ [KeyboardInterrupt; SystemExit; GeneratorExit] ->
   handle_errors f args kwargs w = (Raise e, w')).
Proof.
  intros Hspec Hf. rewrite handle_errors_unfold, Hf, Hspec. simpl. split.
  - by intros ->.
  - intros Hcls. unfold isinstance.
    by repeat (apply elem_of_cons in Hcls as [->|Hcls]; [done|]);
      apply elem_of_nil in Hcls.
Qed.

(** A decorated method interrupted from the keyboard. *)
Definition interrupted : pyfun :=
  fun _ _ => raise (Exn KeyboardInterrupt EmptyString).

Lemma handle_errors_ignoring_Exception_witness :
  let e := Exn KeyboardInterrupt EmptyString in
  let kwargs : gmap string value := {[ "ignore_errors" := VClass Exception ]} in
  (isinstance e Exception = true ->
   handle_errors interrupted [] kwargs at_noon = (Val VNone, noted at_noon e)) /\
  (exn_class_of e ∈ [KeyboardInterrupt; SystemExit; GeneratorExit] ->
   handle_errors interrupted [] kwargs at_noon = (Raise e, at_noon)).
Proof.
  intros e kwargs.
  apply (handle_errors_ignoring_Exception interrupted [] kwargs at_noon);
    vm_compute; reflexivity.
Defined.

(** ** One call of the REST layer per operation *)

(** [w'] is [w] after one call of the REST layer and nothing else. *)
Definition called_once (w w' : World) (ev : event) : Prop :=
  requests w' = S (requests w) /\
  trace w' = trace w ++ [ev] /\
  clock w' = clock w /\ shows w' = shows w /\ sleeps w' = sleeps w /\
  logs w' = logs w.

Lemma request_then_check_once c method uri sent x w :
  called_once w
    ((reply <- request c method uri sent ;;
      expected_success x (status_item reply.1) ;;;
      obj <- deserialize c reply.2 ;;
      ret (reply.1, obj)) w).2
    (EvRequest method uri sent (rest_call c (requests w) method uri sent)).
Proof.
  unfold bind, request.
  destruct (rest_call c (requests w) method uri sent) as [e|[code body]].
  { by repeat split. }
  cbn [fst]. rewrite expected_success_of_item. by repeat split.
Qed.

(** X7. Create, show and delete each call the REST layer exactly once,
    however the call goes (an exception, a response of any status and
    body): [self.post] with the serialized object and the collection URI,
    [self.get] or [self.delete] with the object URI.  The operations
    repeat nothing themselves, and nothing else in the world changes. *)
Theorem rest_operations_call_once c w resource object_dict uuid params :
  called_once w (_create_request c resource object_dict params w).2
    (EvRequest "POST" (_get_uri c resource None params)
       (Some (json_dumps c object_dict))
       (rest_call c (requests w) "POST" (_get_uri c resource None params)
                  (Some (json_dumps c object_dict)))) /\
  called_once w (_show_request c resource uuid params w).2
    (EvRequest "GET" (_get_uri c resource (Some uuid) params) None
       (rest_call c (requests w) "GET"
                  (_get_uri c resource (Some uuid) params) None)) /\
  called_once w (_delete_request c resource uuid params w).2
    (EvRequest "DELETE" (_get_uri c resource (Some uuid) params) None
       (rest_call c (requests w) "DELETE"
                  (_get_uri c resource (Some uuid) params) None)).
Proof.
  split; [|split].
  - apply (request_then_check_once c "POST" _ _ (AnyOf [201; 202])).
  - apply (request_then_check_once c "GET" _ _ (One 200)).
  - apply (request_then_check_once c "DELETE" _ _ (AnyOf [202; 204])).
Qed.

(** X8. An exception that the call of the REST layer raises (a transport
    failure first of all: no response at all) comes out of create, show
    and delete as it was raised: the status check and the decoding are
    not reached. *)
Theorem transport_failure_propagates c w resource object_dict uuid params e :
  (forall method uri sent, rest_call c (requests w) method uri sent = inl e) ->
  (_create_request c resource object_dict params w).1 = Raise e /\
  (_show_request c resource uuid params w).1 = Raise e /\
  (_delete_request c resource uuid params w).1 = Raise e.
Proof.
  intros Hfail.
  unfold _create_request, _show_request, _delete_request, post, get, delete_,
    bind, request.
  by rewrite !Hfail.
Qed.

(** A service that cannot be reached. *)
Definition unreachable (e : exn) : RestClient :=
  mkRestClient "v2" (fun _ => "{}") loads_scenario
               (fun _ => EmptyString) (fun _ _ _ _ => inl e).

Lemma transport_failure_propagates_witness :
  let e := Exn Exception "Connection refused" in
  (_create_request (unreachable e) "zones" ∅ None at_noon).1 = Raise e /\
  (_show_request (unreachable e) "zones" "z1" None at_noon).1 = Raise e /\
  (_delete_request (unreachable e) "zones" "z1" None at_noon).1 = Raise e.
Proof.
  intros e.
  apply (transport_failure_propagates (unreachable e) at_noon).
  reflexivity.
Defined.

(** * data_utils.py *)

From Stdlib Require Import Ascii.

(** ** Random numbers and their monad *)

(** The state of [random] and of [LOG] for the data generators: what the
    generator of random numbers yields draw after draw, how many draws
    were made, and the warnings logged. *)
Record Source := mkSource {
  raw : nat -> Z;
  drawn : nat;
  warnings : list string
}.

Definition G (A : Type) : Type := Source -> res A * Source.

Definition gret {A} (a : A) : G A := fun g => (Val a, g).
Definition graise {A} (e : exn) : G A := fun g => (Raise e, g).

Definition gbind {A B} (m : G A) (k : A -> G B) : G B :=
  fun g =>
    match m g with
    | (Val a, g') => k a g'
    | (Raise e, g') => (Raise e, g')
    | (OutOfFuel, g') => (OutOfFuel, g')
    end.

Notation "x <~ m ;; k" := (gbind m (fun x => k))
  (at level 100, m at next level, right associativity).

(** [random.randrange(start, stop)]: an empty range is a [ValueError];
    otherwise the next draw, brought into the range. *)
Definition randrange (start stop : Z) : G Z :=
  fun g =>
    if stop <=? start
    then (Raise (Exn ValueError "empty range for randrange()"), g)
    else (Val (start + raw g (drawn g) `mod` (stop - start)),
          mkSource (raw g) (S (drawn g)) (warnings g)).

(** [random.randint(a, b)], both ends included. *)
Definition randint (a b : Z) : G Z := randrange a (b + 1).

Definition warn (line : string) : G unit :=
  fun g => (Val tt, mkSource (raw g) (drawn g) (warnings g ++ [line])).

(** ** The helpers of tempest that the generators call *)

(** Truth value of a [str]. *)
Definition nonempty (s : string) : bool := negb (String.eqb s EmptyString).

(** [tempest.lib.common.utils.data_utils.rand_name(name, prefix)]: a
    random number of up to 31 bits, behind [name-] when there is a name
    and [prefix-] when there is a prefix. *)
Definition rand_name (name : string) (prefix : option string) : G string :=
  n <~ randint 1 2147483647 ;;
  let rand_name := pretty n in
  let rand_name :=
    if nonempty name then name +:+ "-" +:+ rand_name else rand_name in
  let rand_name :=
    match prefix with
    | Some p => if nonempty p then p +:+ "-" +:+ rand_name else rand_name
    | None => rand_name
    end in
  gret rand_name.

(** [tempest.lib.common.utils.data_utils.rand_int_id(start, end)] *)
Definition rand_int_id (start end_ : Z) : G Z := randint start end_.

(** ** Methods of [str] *)

(** [s.rstrip(c)], [s.lstrip(c)] and [s.strip(c)] for one character. *)
Fixpoint rstrip (c : Ascii.ascii) (s : string) : string :=
  match s with
  | EmptyString => EmptyString
  | String a rest =>
      match rstrip c rest with
      | EmptyString => if Ascii.eqb a c then EmptyString
                       else String a EmptyString
      | kept => String a kept
      end
  end.

Fixpoint lstrip (c : Ascii.ascii) (s : string) : string :=
  match s with
  | EmptyString => EmptyString
  | String a rest => if Ascii.eqb a c then lstrip c rest else s
  end.

Definition strip (c : Ascii.ascii) (s : string) : string :=
  rstrip c (lstrip c s).

(** [s.replace(old, new)] for a one-character [old]. *)
Fixpoint replace (old : Ascii.ascii) (new s : string) : string :=
  match s with
  | EmptyString => EmptyString
  | String a rest =>
      if Ascii.eqb a old then new +:+ replace old new rest
      else String a (replace old new rest)
  end.

(** [sep.join(parts)] *)
Definition join (sep : string) (parts : list string) : string :=
  String.concat sep parts.

(** ** The values the generators build *)

Inductive pdata :=
  | PNone
  | PStr (s : string)
  | PInt (n : Z)
  | PList (l : list pdata)
  | PTuple (l : list pdata)
  | PDict (d : gmap string pdata).

(** ** The generators *)

Definition rand_ip : G string :=
  a <~ randrange 0 256 ;;
  b <~ randrange 0 256 ;;
  c <~ randrange 0 256 ;;
  d <~ randrange 0 256 ;;
  gret (join "." [pretty a; pretty b; pretty c; pretty d]).

(** [rand_zone_name(name='', prefix=None, suffix='.com.')] *)
Definition rand_zone_name (name : string) (prefix : option string)
    (suffix : string) : G string :=
  name <~ rand_name name prefix ;;
  gret (name +:+ suffix).

(** [domain or rand_zone_name()] and the like: [None] and the empty
    string both count as missing. *)
Definition given (s : option string) : option string :=
  match s with
  | Some s => if nonempty s then Some s else None
  | None => None
  end.

Definition rand_email (domain : option string) : G string :=
  domain <~ match given domain with
            | Some d => gret d
            | None => rand_zone_name EmptyString None ".com."
            end ;;
  gret ("example@" +:+ rstrip "."%char domain).

(** [rand_ttl(start=1, end=86400)] *)
Definition rand_ttl (start end_ : Z) : G Z := rand_int_id start end_.

Definition newline : string := String (Ascii.ascii_of_nat 10) EmptyString.

Definition zone_base : string :=
  "$ORIGIN &" +:+ newline
    +:+ "& # IN SOA ns.& nsadmin.& # # # # #" +:+ newline
    +:+ "& # IN NS ns.&" +:+ newline
    +:+ "& # IN MX 10 mail.&" +:+ newline
    +:+ "ns.& 360 IN A 1.0.0.1".

Definition rand_zonefile_data (name ttl : option string) : G string :=
  name <~ match name with
          | Some n => gret n
          | None => rand_zone_name EmptyString None ".com."
          end ;;
  ttl <~ match ttl with
         | Some t => gret t
         | None => t <~ rand_ttl 1200 8400 ;; gret (pretty t)
         end ;;
  gret (replace "#"%char ttl (replace "&"%char name zone_base)).

(** [x or rand_int_id(100, 999999)] for an [int] or [None]: [None] and 0
    both count as missing. *)
Definition or_rand_int_id (x : option Z) : G Z :=
  match x with
  | Some n => if n =? 0 then rand_int_id 100 999999 else gret n
  | None => rand_int_id 100 999999
  end.

Definition rand_quotas (zones zone_records zone_recordsets
    recordset_records api_export_size : option Z) : G (gmap string pdata) :=
  _ <~ warn ("Leaving `api_export_size` out of quota data due to: "
               +:+ "https://bugs.launchpad.net/designate/+bug/1573141") ;;
  zones <~ or_rand_int_id zones ;;
  zone_records <~ or_rand_int_id zone_records ;;
  zone_recordsets <~ or_rand_int_id zone_recordsets ;;
  recordset_records <~ or_rand_int_id recordset_records ;;
  gret {[ "quota" :=
            PDict {[ "zones" := PInt zones;
                     "zone_records" := PInt zone_records;
                     "zone_recordsets" := PInt zone_recordsets;
                     "recordset_records" := PInt recordset_records ]} ]}.

Definition rand_zone_data (name email : option string) (ttl : option Z)
    (description : option string) : G (gmap string pdata) :=
  name <~ match name with
          | Some n => gret n
          | None => rand_zone_name EmptyString (Some "testdomain") ".com."
          end ;;
  email <~ match email with
           | Some e => gret e
           | None => gret (strip "."%char ("admin@" +:+ name))
           end ;;
  description <~ match description with
                 | Some d => gret d
                 | None => rand_zone_name EmptyString (Some "Description ")
                                          EmptyString
                 end ;;
  (* a 1-tuple that nothing reads *)
  _ <~ match ttl with
       | Some t => gret (PInt t)
       | None => t <~ randint 1200 8400 ;; gret (PTuple [PInt t])
       end ;;
  fresh <~ randint 1200 8400 ;;
  gret {[ "name" := PStr name;
          "email" := PStr email;
          "ttl" := PInt fresh;
          "description" := PStr description ]}.

(** [x is None] *)
Definition is_none (x : pdata) : bool :=
  match x with
  | PNone => true
  | _ => false
  end.

(** [rand_recordset_data(record_type, zone_name, name=None, records=None,
    ttl=None)]; [PNone] is [None]. *)
Definition rand_recordset_data (record_type zone_name : string)
    (name records ttl : pdata) : G (gmap string pdata) :=
  name <~ (if is_none name
           then n <~ rand_zone_name EmptyString (Some record_type)
                                    ("." +:+ zone_name) ;;
                gret (PStr n)
           else gret name) ;;
  records <~ (if is_none records
              then ip <~ rand_ip ;; gret (PList [PStr ip])
              else gret records) ;;
  ttl <~ (if is_none ttl
          then t <~ randint 1200 8400 ;; gret (PInt t)
          else gret ttl) ;;
  gret {[ "type" := PStr record_type;
          "name" := name;
          "records" := records;
          "ttl" := ttl ]}.

(** The call [rand_recordset_data(record_type, zone_name,
    records=records, **kwargs)] that the typed generators end with: the
    keyword arguments may only name the parameters still free, [name] and
    [ttl]; any other key (an unknown one, or [records] once more) is a
    [TypeError] of the call. *)
Definition rand_recordset_data_kw (record_type zone_name : string)
    (records : pdata) (kwargs : gmap string pdata) : G (gmap string pdata) :=
  if bool_decide (dom kwargs ⊆ ({[ "name"; "ttl" ]} : gset string))
  then rand_recordset_data record_type zone_name
                           (default PNone (kwargs !! "name")) records
                           (default PNone (kwargs !! "ttl"))
  else graise (Exn TypeError
                 ("rand_recordset_data() got an unexpected or repeated "
                    +:+ "keyword argument")).

Definition rand_a_recordset (zone_name : string) (ip : option string)
    (kwargs : gmap string pdata) : G (gmap string pdata) :=
  ip <~ match ip with
        | Some ip => gret ip
        | None => rand_ip
        end ;;
  rand_recordset_data_kw "A" zone_name (PList [PStr ip]) kwargs.

Definition rand_cname_recordset (zone_name : string) (cname : option string)
    (kwargs : gmap string pdata) : G (gmap string pdata) :=
  let cname := default zone_name cname in
  rand_recordset_data_kw "CNAME" zone_name (PList [PStr cname]) kwargs.

Definition rand_mx_recordset (zone_name : string) (pref host : option string)
    (kwargs : gmap string pdata) : G (gmap string pdata) :=
  pref <~ match pref with
          | Some p => gret p
          | None => n <~ randint 0 65535 ;; gret (pretty n)
          end ;;
  host <~ match host with
          | Some h => gret h
          | None => rand_zone_name EmptyString (Some "mail")
                                   ("." +:+ zone_name)
          end ;;
  let data := pref +:+ " " +:+ host in
  rand_recordset_data_kw "MX" zone_name (PList [PStr data]) kwargs.

Definition rand_spf_recordset (zone_name : string) (data : option string)
    (kwargs : gmap string pdata) : G (gmap string pdata) :=
  let data := default "v=spf1 +all" (given data) in
  rand_recordset_data_kw "SPF" zone_name (PList [PStr data]) kwargs.

Definition rand_srv_recordset (zone_name : string) (data : option string)
  : G (gmap string pdata) :=
  data <~ match given data with
          | Some d => gret d
          | None => n <~ rand_zone_name EmptyString None EmptyString ;;
                    gret ("10 0 8080 " +:+ n +:+ "." +:+ zone_name)
          end ;;
  rand_recordset_data "SRV" zone_name (PStr ("_sip._tcp." +:+ zone_name))
                      (PList [PStr data]) PNone.

(** [x or d] for an [int] or [None]. *)
Definition int_or (x : option Z) (d : Z) : Z :=
  match x with
  | Some n => if n =? 0 then d else n
  | None => d
  end.

Definition rand_sshfp_recordset (zone_name : string)
    (algorithm_number fingerprint_type : option Z)
    (fingerprint : option string) (kwargs : gmap string pdata)
  : G (gmap string pdata) :=
  let algorithm_number := int_or algorithm_number 2 in
  let fingerprint_type := int_or fingerprint_type 1 in
  let fingerprint :=
    default "123456789abcdef67890123456789abcdef67890" (given fingerprint) in
  let data := pretty algorithm_number +:+ " " +:+ pretty fingerprint_type
                +:+ " " +:+ fingerprint in
  rand_recordset_data_kw "SSHFP" zone_name (PList [PStr data]) kwargs.

Definition rand_txt_recordset (zone_name : string) (data : option string)
    (kwargs : gmap string pdata) : G (gmap string pdata) :=
  let data := default "v=spf1 +all" (given data) in
  rand_recordset_data_kw "TXT" zone_name (PList [PStr data]) kwargs.

Definition wildcard_ns_recordset (zone_name : string)
  : G (gmap string pdata) :=
  let name := "*." +:+ zone_name in
  let records := [PStr "ns.example.com."] in
  rand_recordset_data "NS" zone_name (PStr name) (PList records) PNone.

(** * Properties of the data generators *)

(** ** Strings *)

Lemma append_cons a s t : String a s +:+ t = String a (s +:+ t).
Proof. reflexivity. Qed.

Lemma append_empty_r s : s +:+ EmptyString = s.
Proof. induction s as [|a s IH]; [done|]. by rewrite append_cons, IH. Qed.

Lemma append_assoc s t u : (s +:+ t) +:+ u = s +:+ (t +:+ u).
Proof. induction s as [|a s IH]; [done|]. by rewrite !append_cons, IH. Qed.

(** [k] copies of [c] *)
Fixpoint copies (c : ascii) (k : nat) : string :=
  match k with
  | O => EmptyString
  | S k' => String c (copies c k')
  end.

Fixpoint last_char (s : string) : option ascii :=
  match s with
  | EmptyString => None
  | String a EmptyString => Some a
  | String _ rest => last_char rest
  end.

(** [rstrip] takes away a run of [c] at the end, all of it and nothing
    else. *)
Lemma rstrip_spec c s :
  last_char (rstrip c s) <> Some c /\
  exists k, s = rstrip c s +:+ copies c k.
Proof.
  induction s as [|a rest [IHlast [k IHk]]]; simpl.
  - split; [done|]. by exists O.
  - destruct (rstrip c rest) as [|b kept] eqn:Hr.
    + destruct (Ascii.eqb_spec a c) as [->|Hne].
      * split; [done|]. exists (S k). simpl. by rewrite IHk at 1.
      * split; [by intros [= ->]|]. exists k. by rewrite IHk at 1.
    + split; [done|]. exists k. by rewrite IHk at 1.
Qed.

(** Behind a text that does not end in [c], [rstrip] works on what
    follows. *)
Lemma rstrip_app_keep c a s y :
  last_char a = Some y -> y <> c ->
  rstrip c (a +:+ s) = a +:+ rstrip c s.
Proof.
  induction a as [|x a IH]; [done|]. intros Hlast Hy.
  rewrite !append_cons. simpl.
  destruct a as [|x' a'].
  - injection Hlast as ->. change (EmptyString +:+ s) with s.
    change (EmptyString +:+ rstrip c s) with (rstrip c s).
    destruct (rstrip c s); [|done].
    by rewrite (proj2 (Ascii.eqb_neq _ _) Hy).
  - rewrite IH by done. by rewrite append_cons.
Qed.

Lemma replace_app old new a b :
  replace old new (a +:+ b) = replace old new a +:+ replace old new b.
Proof.
  induction a as [|x a IH]; [done|]. rewrite append_cons. simpl.
  destruct (Ascii.eqb x old).
  - by rewrite IH, append_assoc.
  - by rewrite IH, append_cons.
Qed.

(** ** rand_email *)

Lemma randint_draws a b g :
  a <= b ->
  exists v, randint a b g
            = (Val v, mkSource (raw g) (S (drawn g)) (warnings g)) /\
            a <= v <= b.
Proof.
  intros Hab. unfold randint, randrange.
  rewrite (proj2 (Z.leb_gt _ _)) by lia. eexists. split; [reflexivity|].
  pose proof (Z.mod_pos_bound (raw g (drawn g)) (b + 1 - a)). lia.
Qed.

(** X9. [rand_email] gives [example@] and a domain that never ends in
    a dot.  A domain handed in is used as it is but for the dots at its
    end, and no random number is drawn; without one, and also with the
    empty string, the domain is a drawn number followed by [.com]. *)
Theorem rand_email_domain domain g :
  exists d,
    (rand_email domain g).1 = Val ("example@" +:+ d) /\
    last_char d <> Some "."%char /\
    match given domain with
    | Some given_domain =>
        (exists k, given_domain = d +:+ copies "." k) /\
        (rand_email domain g).2 = g
    | None =>
        (exists n, 1 <= n <= 2147483647 /\ d = pretty n +:+ ".com") /\
        drawn (rand_email domain g).2 = S (drawn g)
    end.
Proof.
  unfold rand_email. destruct (given domain) as [dom|].
  - exists (rstrip "." dom). unfold gbind, gret. simpl.
    destruct (rstrip_spec "." dom) as [Hlast Hk]. by repeat split.
  - unfold gbind, rand_zone_name, rand_name.
    destruct (randint_draws 1 2147483647 g) as (n & Hn & Hrange); [lia|].
    unfold gbind. rewrite Hn. unfold gret. cbn [nonempty String.eqb negb].
    exists (pretty n +:+ ".com"). cbn [fst snd drawn].
    assert (Hstrip : rstrip "." (pretty n +:+ ".com.") = pretty n +:+ ".com").
    { destruct (pretty n) as [|x p] eqn:Hp.
      - reflexivity.
      - assert (Hsplit : String x p +:+ ".com."
                         = (String x p +:+ ".co") +:+ "m.")
          by (by rewrite append_assoc).
        rewrite Hsplit.
        assert (Hlast : forall q, last_char (q +:+ ".co") = Some "o"%char).
        { induction q as [|y q IHq]; [done|].
          rewrite append_cons. simpl. rewrite IHq.
          by destruct (q +:+ ".co") eqn:E; [destruct q|]. }
        rewrite (rstrip_app_keep "." _ "m." "o" (Hlast _)) by done.
        by rewrite append_assoc. }
    rewrite Hstrip. split; [done|]. split.
    + assert (Hlast : forall q, last_char (q +:+ ".com") = Some "m"%char).
      { induction q as [|y q IHq]; [done|].
        rewrite append_cons. simpl. rewrite IHq.
        by destruct (q +:+ ".com") eqn:E; [destruct q|]. }
      by rewrite Hlast.
    + split; [|done]. by exists n.
Qed.

(** ** rand_zonefile_data *)

(** The zone file for a name and a TTL. *)
Definition zonefile_text (n t : string) : string :=
  "$ORIGIN " +:+ n +:+ newline
    +:+ n +:+ " " +:+ t +:+ " IN SOA ns." +:+ n +:+ " nsadmin." +:+ n
    +:+ " " +:+ t +:+ " " +:+ t +:+ " " +:+ t +:+ " " +:+ t +:+ " " +:+ t
    +:+ newline
    +:+ n +:+ " " +:+ t +:+ " IN NS ns." +:+ n +:+ newline
    +:+ n +:+ " " +:+ t +:+ " IN MX 10 mail." +:+ n +:+ newline
    +:+ "ns." +:+ n +:+ " 360 IN A 1.0.0.1".

(** Does [c] occur in [s]? *)
Fixpoint occurs (c : ascii) (s : string) : bool :=
  match s with
  | EmptyString => false
  | String a rest => Ascii.eqb a c || occurs c rest
  end.

Lemma replace_absent old new s :
  occurs old s = false -> replace old new s = s.
Proof.
  induction s as [|a s IH]; [done|]. simpl.
  destruct (Ascii.eqb a old); [done|]. intros H. by rewrite IH.
Qed.

(** X10. With a name and a TTL given, [rand_zonefile_data] draws nothing
    and returns the zone file in which the TTL stands for every [#] and
    the name for every [&].  The TTL is filled in after the name, over
    the whole text, so a [#] inside the name is replaced by the TTL as
    well; a name without [#] comes out as it went in. *)
Theorem rand_zonefile_data_text name ttl g :
  rand_zonefile_data (Some name) (Some ttl) g
  = (Val (zonefile_text (replace "#" ttl name) ttl), g) /\
  (occurs "#" name = false ->
   rand_zonefile_data (Some name) (Some ttl) g
   = (Val (zonefile_text name ttl), g)).
Proof.
  assert (Hgen : rand_zonefile_data (Some name) (Some ttl) g
                 = (Val (zonefile_text (replace "#" ttl name) ttl), g)).
  { unfold rand_zonefile_data, gbind, gret, zone_base, zonefile_text, newline.
    f_equal. f_equal.
    repeat (progress (rewrite ?replace_app; simpl)).
    repeat (rewrite ?append_cons, ?append_assoc, ?append_empty_r;
            change (EmptyString +:+ ?x) with x).
    reflexivity. }
  split; [done|]. intros Hno. by rewrite Hgen, replace_absent.
Qed.

(** ** rand_zone_data *)

(** What [rand_name] makes of the number [n]. *)
Definition rand_name_text (name : string) (prefix : option string) (n : Z)
  : string :=
  let r := pretty n in
  let r := if nonempty name then name +:+ "-" +:+ r else r in
  match prefix with
  | Some p => if nonempty p then p +:+ "-" +:+ r else r
  | None => r
  end.

Lemma rand_zone_name_draws name prefix suffix g :
  exists n,
    1 <= n <= 2147483647 /\
    rand_zone_name name prefix suffix g
    = (Val (rand_name_text name prefix n +:+ suffix),
       mkSource (raw g) (S (drawn g)) (warnings g)).
Proof.
  unfold rand_zone_name, rand_name, gbind.
  destruct (randint_draws 1 2147483647 g) as (n & Hn & Hrange); [lia|].
  rewrite Hn. exists n. split; [done|]. unfold gret, rand_name_text.
  by destruct prefix as [p|]; [destruct (nonempty p)|].
Qed.

(** Run the next draw in the goal. *)
Ltac draw_number :=
  match goal with
  | |- context [randint ?a ?b ?g'] =>
      let v := fresh "v" in
      let Hv := fresh "Hv" in
      let Hr := fresh "Hr" in
      destruct (randint_draws a b g') as (v & Hv & Hr); [lia|];
      rewrite Hv; clear Hv; cbv beta iota delta [gret]
  end.

Ltac draw_name :=
  match goal with
  | |- context [rand_zone_name ?name ?prefix ?suffix ?g'] =>
      let n := fresh "n" in
      let Hn := fresh "Hn" in
      let Hr := fresh "Hr" in
      destruct (rand_zone_name_draws name prefix suffix g') as (n & Hr & Hn);
      rewrite Hn; clear Hn; cbv beta iota delta [gret]
  end.

(** X11. [rand_zone_data] never uses the [ttl] it is given: whatever TTL
    is handed in, the result is the same, and its [ttl] is a number drawn
    within 1200..8400.  The call always returns, a dict with exactly the
    keys [name], [email], [ttl] and [description], in which a name, an
    email and a description handed in stand as they are. *)
Theorem rand_zone_data_ignores_ttl name email ttl description g :
  (forall t1 t2,
     rand_zone_data name email (Some t1) description g
     = rand_zone_data name email (Some t2) description g) /\
  exists d v,
    (rand_zone_data name email ttl description g).1 = Val d /\
    d !! "ttl" = Some (PInt v) /\ 1200 <= v <= 8400 /\
    dom d = {[ "name"; "email"; "ttl"; "description" ]} /\
    (forall n, name = Some n -> d !! "name" = Some (PStr n)) /\
    (forall e, email = Some e -> d !! "email" = Some (PStr e)) /\
    (forall x, description = Some x -> d !! "description" = Some (PStr x)).
Proof.
  split; [reflexivity|].
  unfold rand_zone_data, gbind.
  assert (Hname : exists n' g1,
             match name with
             | Some n => gret n
             | None => rand_zone_name EmptyString (Some "testdomain") ".com."
             end g = (Val n', g1) /\
             forall n, name = Some n -> n' = n).
  { destruct name as [n|].
    - exists n, g. split; [done|]. by intros ? [= ->].
    - destruct (rand_zone_name_draws EmptyString (Some "testdomain")
                  ".com." g) as (k & _ & Hk).
      rewrite Hk. eexists _, _. split; [done|]. done. }
  destruct Hname as (n' & g1 & -> & Hn').
  assert (Hemail : exists e',
             match email with
             | Some e => gret e
             | None => gret (strip "." ("admin@" +:+ n'))
             end g1 = (Val e', g1) /\
             forall e, email = Some e -> e' = e).
  { destruct email as [e|]; eexists; (split; [done|]); [|done].
    by intros ? [= ->]. }
  destruct Hemail as (e' & -> & He').
  assert (Hdescr : exists x' g2,
             match description with
             | Some x => gret x
             | None => rand_zone_name EmptyString (Some "Description ")
                                      EmptyString
             end g1 = (Val x', g2) /\
             forall x, description = Some x -> x' = x).
  { destruct description as [x|].
    - exists x, g1. split; [done|]. by intros ? [= ->].
    - destruct (rand_zone_name_draws EmptyString (Some "Description ")
                  EmptyString g1) as (k & _ & Hk).
      rewrite Hk. eexists _, _. split; [done|]. done. }
  destruct Hdescr as (x' & g2 & -> & Hx').
  assert (Htail : forall g3, exists d v,
             (match randint 1200 8400 g3 with
              | (Val fresh, g4) =>
                  gret ({[ "name" := PStr n'; "email" := PStr e';
                           "ttl" := PInt fresh;
                           "description" := PStr x' ]}
                        : gmap string pdata) g4
              | (Raise e, g4) => (Raise e, g4)
              | (OutOfFuel, g4) => (OutOfFuel, g4)
              end).1 = Val d /\
             d !! "ttl" = Some (PInt v) /\ 1200 <= v <= 8400 /\
             dom d = {[ "name"; "email"; "ttl"; "description" ]} /\
             d !! "name" = Some (PStr n') /\
             d !! "email" = Some (PStr e') /\
             d !! "description" = Some (PStr x')).
  { intros g3.
    destruct (randint_draws 1200 8400 g3) as (v & -> & Hv); [lia|].
    unfold gret. cbn [fst]. eexists _, v. split; [reflexivity|].
    split; [by simplify_map_eq|]. split; [done|]. split.
    { rewrite !dom_insert_L, dom_singleton_L. set_solver. }
    repeat split; by simplify_map_eq. }
  assert (Hg3 : exists g3, forall K : Source -> res (gmap string pdata) * Source,
             match
               match ttl with
               | Some t => gret (PInt t)
               | None =>
                   fun g0 =>
                     match randint 1200 8400 g0 with
                     | (Val a, g') => gret (PTuple [PInt a]) g'
                     | (Raise e, g') => (Raise e, g')
                     | (OutOfFuel, g') => (OutOfFuel, g')
                     end
               end g2
             with
             | (Val _, g') => K g'
             | (Raise e, g') => (Raise e, g')
             | (OutOfFuel, g') => (OutOfFuel, g')
             end = K g3).
  { destruct ttl as [t|]; [by exists g2|].
    destruct (randint_draws 1200 8400 g2) as (k & Hk & _); [lia|].
    rewrite Hk. by eexists. }
  destruct Hg3 as (g3 & ->).
  destruct (Htail g3) as (d & v & Hd & Hv & Hrange & Hdom & Hn & He & Hx).
  exists d, v. do 4 (split; [done|]). split; [|split].
  - intros n Hname. by rewrite <- (Hn' n Hname).
  - intros e Hmail. by rewrite <- (He' e Hmail).
  - intros x Hdesc. by rewrite <- (Hx' x Hdesc).
Qed.

(** X12. Without an email, [rand_zone_data] makes one from the name:
    [admin@] and the name less the dots at its end, so that a fully
    qualified [example.org.] gives [admin@example.org]. *)
Theorem rand_zone_data_default_email name ttl description g :
  exists d,
    (rand_zone_data (Some name) None ttl description g).1 = Val d /\
    d !! "name" = Some (PStr name) /\
    d !! "email" = Some (PStr ("admin@" +:+ rstrip "." name)).
Proof.
  assert (Hstrip : strip "." ("admin@" +:+ name)
                   = "admin@" +:+ rstrip "." name).
  { unfold strip. change (lstrip "." ("admin@" +:+ name))
      with ("admin@" +:+ name).
    by apply (rstrip_app_keep "." "admin@" name "@"). }
  unfold rand_zone_data, gbind, gret. rewrite Hstrip.
  destruct description as [x|]; destruct ttl as [t|];
    repeat first [draw_number | draw_name];
    (eexists; split; [reflexivity|]; split; by simplify_map_eq).
Qed.

(** ** rand_quotas *)

(** What [x or rand_int_id(100, 999999)] gives for [x]. *)
Definition quota_entry (x : option Z) (v : Z) : Prop :=
  match x with
  | Some n => if n =? 0 then 100 <= v <= 999999 else v = n
  | None => 100 <= v <= 999999
  end.

Lemma or_rand_int_id_spec x g :
  exists v g',
    or_rand_int_id x g = (Val v, g') /\ quota_entry x v /\
    raw g' = raw g /\ warnings g' = warnings g.
Proof.
  unfold or_rand_int_id, quota_entry, rand_int_id.
  destruct x as [n|]; [destruct (n =? 0) eqn:Hz|].
  - draw_number. by eexists _, _.
  - by exists n, g.
  - draw_number. by eexists _, _.
Qed.

(** X13. [rand_quotas] always returns [{'quota': q}] where [q] has
    exactly the keys [zones], [zone_records], [zone_recordsets] and
    [recordset_records]: an [api_export_size] handed in is dropped.  Each
    entry is the number handed in, unless that is missing or 0, in which
    case it is drawn within 100..999999.  Every call logs one warning. *)
Theorem rand_quotas_contents zones zone_records zone_recordsets
    recordset_records api_export_size g :
  exists q v1 v2 v3 v4 g',
    rand_quotas zones zone_records zone_recordsets recordset_records
                api_export_size g
    = (Val {[ "quota" := PDict q ]}, g') /\
    dom q = {[ "zones"; "zone_records"; "zone_recordsets";
               "recordset_records" ]} /\
    q !! "api_export_size" = None /\
    q !! "zones" = Some (PInt v1) /\ quota_entry zones v1 /\
    q !! "zone_records" = Some (PInt v2) /\ quota_entry zone_records v2 /\
    q !! "zone_recordsets" = Some (PInt v3) /\
    quota_entry zone_recordsets v3 /\
    q !! "recordset_records" = Some (PInt v4) /\
    quota_entry recordset_records v4 /\
    length (warnings g') = S (length (warnings g)).
Proof.
  unfold rand_quotas, gbind, warn.
  match goal with
  | |- context [or_rand_int_id zones ?g0] =>
      destruct (or_rand_int_id_spec zones g0) as (v1 & g1 & -> & H1 & _ & W1)
  end.
  destruct (or_rand_int_id_spec zone_records g1)
    as (v2 & g2 & -> & H2 & _ & W2).
  destruct (or_rand_int_id_spec zone_recordsets g2)
    as (v3 & g3 & -> & H3 & _ & W3).
  destruct (or_rand_int_id_spec recordset_records g3)
    as (v4 & g4 & -> & H4 & _ & W4).
  unfold gret. eexists _, v1, v2, v3, v4, g4. split; [reflexivity|].
  split. { rewrite !dom_insert_L, dom_singleton_L. set_solver. }
  split; [by simplify_map_eq|].
  repeat (split; [by simplify_map_eq || done|]).
  rewrite W4, W3, W2, W1. cbn [warnings]. rewrite length_app. simpl. lia.
Qed.

(** ** rand_ip *)

Lemma randrange_draws a b g :
  a < b ->
  exists v, randrange a b g
            = (Val v, mkSource (raw g) (S (drawn g)) (warnings g)) /\
            a <= v < b.
Proof.
  intros Hab. unfold randrange.
  rewrite (proj2 (Z.leb_gt _ _)) by lia. eexists. split; [reflexivity|].
  pose proof (Z.mod_pos_bound (raw g (drawn g)) (b - a)). lia.
Qed.

Lemma rand_ip_octets g :
  exists a b c d,
    0 <= a <= 255 /\ 0 <= b <= 255 /\ 0 <= c <= 255 /\ 0 <= d <= 255 /\
    rand_ip g
    = (Val (pretty a +:+ "." +:+ pretty b +:+ "." +:+ pretty c +:+ "."
              +:+ pretty d),
       mkSource (raw g) (4 + drawn g) (warnings g)).
Proof.
  unfold rand_ip, gbind.
  destruct (randrange_draws 0 256 g) as (a & -> & Ha); [lia|].
  match goal with
  | |- context [randrange 0 256 ?g1] =>
      destruct (randrange_draws 0 256 g1) as (b & -> & Hb); [lia|]
  end.
  match goal with
  | |- context [randrange 0 256 ?g1] =>
      destruct (randrange_draws 0 256 g1) as (c & -> & Hc); [lia|]
  end.
  match goal with
  | |- context [randrange 0 256 ?g1] =>
      destruct (randrange_draws 0 256 g1) as (d & -> & Hd); [lia|]
  end.
  exists a, b, c, d. repeat (split; [lia|]).
  unfold gret, join. cbn [drawn raw warnings String.concat].
  by rewrite append_empty_r || reflexivity.
Qed.

(** X14. [rand_ip] always returns a dotted quad: four numbers within
    0..255, each in decimal, with dots between them; it makes four
    draws. *)
Theorem rand_ip_dotted_quad g :
  exists a b c d,
    0 <= a <= 255 /\ 0 <= b <= 255 /\ 0 <= c <= 255 /\ 0 <= d <= 255 /\
    rand_ip g
    = (Val (pretty a +:+ "." +:+ pretty b +:+ "." +:+ pretty c +:+ "."
              +:+ pretty d),
       mkSource (raw g) (4 + drawn g) (warnings g)).
Proof. apply rand_ip_octets. Qed.

(** ** rand_recordset_data and the typed generators *)

Lemma is_none_true x : is_none x = true <-> x = PNone.
Proof. by destruct x. Qed.

Lemma rand_ip_draws g :
  exists ip, rand_ip g
             = (Val ip, mkSource (raw g) (4 + drawn g) (warnings g)).
Proof.
  destruct (rand_ip_octets g) as (a & b & c & d & _ & _ & _ & _ & ->).
  by eexists.
Qed.

Lemma rand_recordset_data_spec record_type zone_name name records
    ttl g :
  exists d g',
    rand_recordset_data record_type zone_name name records ttl g
    = (Val d, g') /\
    dom d = {[ "type"; "name"; "records"; "ttl" ]} /\
    d !! "type" = Some (PStr record_type) /\
    (if is_none name
     then exists n, 1 <= n <= 2147483647 /\
            d !! "name"
            = Some (PStr (rand_name_text EmptyString (Some record_type) n
                            +:+ "." +:+ zone_name))
     else d !! "name" = Some name) /\
    (if is_none records
     then exists ip, d !! "records" = Some (PList [PStr ip])
     else d !! "records" = Some records) /\
    (if is_none ttl
     then exists t, 1200 <= t <= 8400 /\ d !! "ttl" = Some (PInt t)
     else d !! "ttl" = Some ttl) /\
    (is_none name = false -> is_none records = false ->
     is_none ttl = false -> g' = g).
Proof.
  unfold rand_recordset_data, gbind.
  destruct (is_none name) eqn:Hn; destruct (is_none records) eqn:Hr;
    destruct (is_none ttl) eqn:Ht; unfold gbind;
    cbv beta iota delta [gret];
    repeat first
      [ draw_number
      | draw_name
      | match goal with
        | |- context [rand_ip ?g1] =>
            let ip := fresh "ip" in
            let Hip := fresh "Hip" in
            destruct (rand_ip_draws g1) as (ip & Hip); rewrite Hip; clear Hip;
            cbv beta iota delta [gret]
        end ];
    unfold gret; eexists _, _; (split; [reflexivity|]);
    (split; [rewrite !dom_insert_L, dom_singleton_L; set_solver|]);
    (split; [by simplify_map_eq|]);
    repeat split; try done; try (by simplify_map_eq);
    try (eexists; split; [eassumption|by simplify_map_eq]);
    try (eexists; by simplify_map_eq).
Qed.

(** X15. [rand_recordset_data] always returns a dict with exactly the
    keys [type], [name], [records] and [ttl].  The type is the one asked
    for; a name, records and a TTL handed in stand as they are, and with
    all three given no random number is drawn.  A missing name is drawn
    inside the zone (it ends in a dot and the zone name), missing records
    are one drawn address, a missing TTL is drawn within 1200..8400. *)
Theorem rand_recordset_data_contents record_type zone_name name records
    ttl g :
  exists d g',
    rand_recordset_data record_type zone_name name records ttl g
    = (Val d, g') /\
    dom d = {[ "type"; "name"; "records"; "ttl" ]} /\
    d !! "type" = Some (PStr record_type) /\
    (if is_none name
     then exists n, 1 <= n <= 2147483647 /\
            d !! "name"
            = Some (PStr (rand_name_text EmptyString (Some record_type) n
                            +:+ "." +:+ zone_name))
     else d !! "name" = Some name) /\
    (if is_none records
     then exists ip, d !! "records" = Some (PList [PStr ip])
     else d !! "records" = Some records) /\
    (if is_none ttl
     then exists t, 1200 <= t <= 8400 /\ d !! "ttl" = Some (PInt t)
     else d !! "ttl" = Some ttl) /\
    (is_none name = false -> is_none records = false ->
     is_none ttl = false -> g' = g).
Proof. apply rand_recordset_data_spec. Qed.

(** Raising a [TypeError], with whatever message. *)
Definition type_error {A} (r : res A) : Prop :=
  exists message, r = Raise (Exn TypeError message).

Lemma rand_recordset_data_kw_rejects record_type zone_name records
    (kwargs : gmap string pdata) key g :
  is_Some (kwargs !! key) -> key <> "name" -> key <> "ttl" ->
  rand_recordset_data_kw record_type zone_name records kwargs g
  = (Raise (Exn TypeError
              ("rand_recordset_data() got an unexpected or repeated "
                 +:+ "keyword argument")), g).
Proof.
  intros Hkey Hname Httl. unfold rand_recordset_data_kw.
  rewrite bool_decide_eq_false_2; [done|].
  intros Hsub. apply elem_of_dom in Hkey. apply Hsub in Hkey.
  set_unfold in Hkey. by destruct Hkey.
Qed.

(** X16. The typed generators pass their keyword arguments on to
    [rand_recordset_data] next to [records=...].  So a keyword argument
    other than [name] and [ttl], an unknown one or [records] itself, makes
    each of them end in a [TypeError], whatever else is handed in. *)
Theorem typed_generators_reject_keywords zone_name
    (kwargs : gmap string pdata) key g ip cname pref host data alg fpt fp :
  is_Some (kwargs !! key) -> key <> "name" -> key <> "ttl" ->
  type_error (rand_a_recordset zone_name ip kwargs g).1 /\
  type_error (rand_cname_recordset zone_name cname kwargs g).1 /\
  type_error (rand_mx_recordset zone_name pref host kwargs g).1 /\
  type_error (rand_spf_recordset zone_name data kwargs g).1 /\
  type_error (rand_sshfp_recordset zone_name alg fpt fp kwargs g).1 /\
  type_error (rand_txt_recordset zone_name data kwargs g).1.
Proof.
  intros Hkey Hname Httl.
  pose proof (fun T r g' =>
                rand_recordset_data_kw_rejects T zone_name r kwargs key g'
                  Hkey Hname Httl) as Hrej.
  unfold type_error, rand_a_recordset, rand_cname_recordset,
    rand_mx_recordset, rand_spf_recordset, rand_sshfp_recordset,
    rand_txt_recordset, gbind.
  repeat split.
  - destruct ip as [ip|].
    + unfold gret. rewrite Hrej. by eexists.
    + destruct (rand_ip_draws g) as (ip & ->). rewrite Hrej. by eexists.
  - rewrite Hrej. by eexists.
  - destruct pref as [p|]; destruct host as [h|]; unfold gret, gbind;
      repeat first [draw_number | draw_name]; rewrite Hrej; by eexists.
  - rewrite Hrej. by eexists.
  - rewrite Hrej. by eexists.
  - rewrite Hrej. by eexists.
Qed.

Lemma typed_generators_reject_keywords_witness :
  let kwargs : gmap string pdata :=
    {[ "records" := PList [PStr "10.0.0.1"] ]} in
  let g := mkSource (fun n => Z.of_nat n) 0 [] in
  type_error (rand_a_recordset "example.org." None kwargs g).1 /\
  type_error (rand_cname_recordset "example.org." None kwargs g).1 /\
  type_error (rand_mx_recordset "example.org." None None kwargs g).1 /\
  type_error (rand_spf_recordset "example.org." None kwargs g).1 /\
  type_error (rand_sshfp_recordset "example.org." None None None kwargs g).1 /\
  type_error (rand_txt_recordset "example.org." None kwargs g).1.
Proof.
  intros kwargs g.
  apply (typed_generators_reject_keywords "example.org." kwargs "records").
  - by eexists.
  - discriminate.
  - discriminate.
Defined.

Lemma rand_recordset_data_kw_accepts record_type zone_name records
    (kwargs : gmap string pdata) g :
  dom kwargs ⊆ ({[ "name"; "ttl" ]} : gset string) ->
  rand_recordset_data_kw record_type zone_name records kwargs g
  = rand_recordset_data record_type zone_name
      (default PNone (kwargs !! "name")) records
      (default PNone (kwargs !! "ttl")) g.
Proof.
  intros Hsub. unfold rand_recordset_data_kw.
  by rewrite bool_decide_eq_true_2.
Qed.

(** A record set of the given type with the one record [data], in which
    a [name] and a [ttl] named by the keyword arguments stand as given. *)
Definition recordset_of (record_type data : string)
    (kwargs : gmap string pdata) (r : res (gmap string pdata)) : Prop :=
  exists d,
    r = Val d /\
    d !! "type" = Some (PStr record_type) /\
    d !! "records" = Some (PList [PStr data]) /\
    (forall v, kwargs !! "name" = Some v -> v <> PNone ->
               d !! "name" = Some v) /\
    (forall v, kwargs !! "ttl" = Some v -> v <> PNone ->
               d !! "ttl" = Some v).

Lemma rand_recordset_data_kw_shape record_type zone_name data
    (kwargs : gmap string pdata) g :
  dom kwargs ⊆ ({[ "name"; "ttl" ]} : gset string) ->
  recordset_of record_type data kwargs
    (rand_recordset_data_kw record_type zone_name (PList [PStr data])
                            kwargs g).1.
Proof.
  intros Hsub. rewrite rand_recordset_data_kw_accepts by done.
  destruct (rand_recordset_data_spec record_type zone_name
              (default PNone (kwargs !! "name")) (PList [PStr data])
              (default PNone (kwargs !! "ttl")) g)
    as (d & g' & -> & _ & Htype & Hname & Hrecords & Httl & _).
  exists d. repeat split; try done.
  - intros v Hv Hsome. rewrite Hv in Hname. simpl in Hname.
    by destruct v.
  - intros v Hv Hsome. rewrite Hv in Httl. simpl in Httl.
    by destruct v.
Qed.

(** X17. Each typed generator, given its data and keyword arguments
    that name nothing but [name] and [ttl], returns a record set of its
    own type whose [records] is the one-element list with that data (for
    MX the preference and the host, for SSHFP the two numbers and the
    fingerprint, each joined by a blank); the [name] and [ttl] of the
    keyword arguments are passed through. *)
Theorem typed_generators_records zone_name (kwargs : gmap string pdata) g
    ip cname pref host data alg fpt fp :
  dom kwargs ⊆ ({[ "name"; "ttl" ]} : gset string) ->
  data <> EmptyString -> fp <> EmptyString -> alg <> 0 -> fpt <> 0 ->
  recordset_of "A" ip kwargs
    (rand_a_recordset zone_name (Some ip) kwargs g).1 /\
  recordset_of "CNAME" cname kwargs
    (rand_cname_recordset zone_name (Some cname) kwargs g).1 /\
  recordset_of "MX" (pref +:+ " " +:+ host) kwargs
    (rand_mx_recordset zone_name (Some pref) (Some host) kwargs g).1 /\
  recordset_of "SPF" data kwargs
    (rand_spf_recordset zone_name (Some data) kwargs g).1 /\
  recordset_of "SSHFP" (pretty alg +:+ " " +:+ pretty fpt +:+ " " +:+ fp)
    kwargs
    (rand_sshfp_recordset zone_name (Some alg) (Some fpt) (Some fp)
                          kwargs g).1 /\
  recordset_of "TXT" data kwargs
    (rand_txt_recordset zone_name (Some data) kwargs g).1.
Proof.
  intros Hsub Hdata Hfp Halg Hfpt.
  assert (Hgiven : forall s, s <> EmptyString -> given (Some s) = Some s).
  { intros s Hs. unfold given, nonempty.
    by destruct (String.eqb_spec s EmptyString). }
  unfold rand_a_recordset, rand_cname_recordset, rand_mx_recordset,
    rand_spf_recordset, rand_sshfp_recordset, rand_txt_recordset,
    gbind, gret, int_or.
  rewrite !Hgiven by done.
  rewrite (proj2 (Z.eqb_neq alg 0) Halg), (proj2 (Z.eqb_neq fpt 0) Hfpt).
  repeat split; by apply rand_recordset_data_kw_shape.
Qed.

Lemma typed_generators_records_witness :
  let kwargs : gmap string pdata := {[ "ttl" := PInt 300 ]} in
  let g := mkSource (fun n => Z.of_nat n) 0 [] in
  recordset_of "A" "10.0.0.1" kwargs
    (rand_a_recordset "example.org." (Some "10.0.0.1") kwargs g).1 /\
  recordset_of "CNAME" "www.example.org." kwargs
    (rand_cname_recordset "example.org." (Some "www.example.org.")
                          kwargs g).1 /\
  recordset_of "MX" ("10" +:+ " " +:+ "mail.example.org.") kwargs
    (rand_mx_recordset "example.org." (Some "10")
                       (Some "mail.example.org.") kwargs g).1 /\
  recordset_of "SPF" "v=spf1 -all" kwargs
    (rand_spf_recordset "example.org." (Some "v=spf1 -all") kwargs g).1 /\
  recordset_of "SSHFP" (pretty 4 +:+ " " +:+ pretty 2 +:+ " " +:+ "abcdef")
    kwargs
    (rand_sshfp_recordset "example.org." (Some 4) (Some 2) (Some "abcdef")
                          kwargs g).1 /\
  recordset_of "TXT" "v=spf1 -all" kwargs
    (rand_txt_recordset "example.org." (Some "v=spf1 -all") kwargs g).1.
Proof.
  intros kwargs g.
  apply (typed_generators_records "example.org." kwargs g);
    try discriminate.
  subst kwargs. rewrite dom_singleton_L. set_solver.
Defined.

(** X18. What counts as missing differs by parameter.  Where the code
    writes [x or default], an empty string or a 0 handed in is replaced
    like [None]: the data of SPF, TXT and SRV record sets, the three
    SSHFP parameters, the domain of [rand_email].  Where it writes
    [if x is None], only [None] is: an empty address or CNAME target
    handed in becomes the single record, empty as it is. *)
Theorem empty_counts_as_missing zone_name (kwargs : gmap string pdata) g :
  rand_spf_recordset zone_name (Some EmptyString) kwargs g
  = rand_spf_recordset zone_name None kwargs g /\
  rand_txt_recordset zone_name (Some EmptyString) kwargs g
  = rand_txt_recordset zone_name None kwargs g /\
  rand_srv_recordset zone_name (Some EmptyString) g
  = rand_srv_recordset zone_name None g /\
  rand_sshfp_recordset zone_name (Some 0) (Some 0) (Some EmptyString) kwargs g
  = rand_sshfp_recordset zone_name None None None kwargs g /\
  rand_email (Some EmptyString) g = rand_email None g /\
  recordset_of "A" EmptyString ∅
    (rand_a_recordset zone_name (Some EmptyString) ∅ g).1 /\
  recordset_of "CNAME" EmptyString ∅
    (rand_cname_recordset zone_name (Some EmptyString) ∅ g).1.
Proof.
  do 5 (split; [reflexivity|]).
  unfold rand_a_recordset, rand_cname_recordset, gbind, gret.
  split; apply rand_recordset_data_kw_shape; by rewrite dom_empty_L.
Qed.

(** ** _get_uri *)

Lemma length_append s t :
  String.length (s +:+ t) = (String.length s + String.length t)%nat.
Proof. induction s as [|a s IH]; [done|]. rewrite append_cons. simpl. lia. Qed.

Lemma append_inj_r s1 s2 t : s1 +:+ t = s2 +:+ t -> s1 = s2.
Proof.
  revert s2. induction s1 as [|a s1 IH]; intros [|b s2] H; try done.
  - apply (f_equal String.length) in H.
    rewrite !length_append in H. simpl in H. lia.
  - apply (f_equal String.length) in H.
    rewrite !length_append in H. simpl in H. lia.
  - rewrite !append_cons in H. injection H as -> H. f_equal. by apply IH.
Qed.

(** X19. Under one resource and one set of query parameters, [_get_uri]
    gives different objects different URIs: two non-empty uuids with the
    same URI are the same uuid.  (An empty uuid is left out of the URI,
    like [None].) *)
Theorem get_uri_tells_objects_apart c resource u1 u2 params :
  u1 <> EmptyString -> u2 <> EmptyString ->
  _get_uri c resource (Some u1) params = _get_uri c resource (Some u2) params ->
  u1 = u2.
Proof.
  intros H1 H2. unfold _get_uri.
  destruct (String.eqb_spec u1 EmptyString); [done|].
  destruct (String.eqb_spec u2 EmptyString); [done|].
  intros H. do 3 apply String.app_inj in H.
  apply append_inj_r in H. by apply (String.app_inj "/") in H.
Qed.

Lemma get_uri_tells_objects_apart_witness :
  "6f1ae9c2" = "6f1ae9c2".
Proof.
  apply (get_uri_tells_objects_apart (answering 200 "{}") "zones"
           "6f1ae9c2" "6f1ae9c2" (Some [("limit", "1")]));
    [discriminate..|reflexivity].
Defined.

(** ** The generators with a fixed name *)

(** X20. [wildcard_ns_recordset] and [rand_srv_recordset] name the
    record set themselves and always return: the first an NS record set
    called [*.] and the zone name, holding [ns.example.com.]; the second
    an SRV record set called [_sip._tcp.] and the zone name, holding the
    data handed in when that is not empty.  Both get a TTL drawn within
    1200..8400. *)
Theorem fixed_name_generators zone_name data g :
  data <> EmptyString ->
  (exists d t,
     (wildcard_ns_recordset zone_name g).1 = Val d /\
     d !! "type" = Some (PStr "NS") /\
     d !! "name" = Some (PStr ("*." +:+ zone_name)) /\
     d !! "records" = Some (PList [PStr "ns.example.com."]) /\
     d !! "ttl" = Some (PInt t) /\ 1200 <= t <= 8400) /\
  (exists d t,
     (rand_srv_recordset zone_name (Some data) g).1 = Val d /\
     d !! "type" = Some (PStr "SRV") /\
     d !! "name" = Some (PStr ("_sip._tcp." +:+ zone_name)) /\
     d !! "records" = Some (PList [PStr data]) /\
     d !! "ttl" = Some (PInt t) /\ 1200 <= t <= 8400).
Proof.
  intros Hdata. split.
  - unfold wildcard_ns_recordset.
    destruct (rand_recordset_data_spec "NS" zone_name
                (PStr ("*." +:+ zone_name))
                (PList [PStr "ns.example.com."]) PNone g)
      as (d & g' & -> & _ & Htype & Hname & Hrecords & (t & Ht & Httl) & _).
    by exists d, t.
  - unfold rand_srv_recordset, gbind, given, nonempty.
    destruct (String.eqb_spec data EmptyString); [done|]. cbn [negb].
    unfold gret.
    destruct (rand_recordset_data_spec "SRV" zone_name
                (PStr ("_sip._tcp." +:+ zone_name))
                (PList [PStr data]) PNone g)
      as (d & g' & -> & _ & Htype & Hname & Hrecords & (t & Ht & Httl) & _).
    by exists d, t.
Qed.

Lemma fixed_name_generators_witness :
  let g := mkSource (fun n => Z.of_nat n) 0 [] in
  (exists d t,
     (wildcard_ns_recordset "example.org." g).1 = Val d /\
     d !! "type" = Some (PStr "NS") /\
     d !! "name" = Some (PStr ("*." +:+ "example.org.")) /\
     d !! "records" = Some (PList [PStr "ns.example.com."]) /\
     d !! "ttl" = Some (PInt t) /\ 1200 <= t <= 8400) /\
  (exists d t,
     (rand_srv_recordset "example.org."
                         (Some "10 0 5060 sip.example.org.") g).1 = Val d /\
     d !! "type" = Some (PStr "SRV") /\
     d !! "name" = Some (PStr ("_sip._tcp." +:+ "example.org.")) /\
     d !! "records" = Some (PList [PStr "10 0 5060 sip.example.org."]) /\
     d !! "ttl" = Some (PInt t) /\ 1200 <= t <= 8400).
Proof.
  intros g.
  apply (fixed_name_generators "example.org." "10 0 5060 sip.example.org." g).
  discriminate.
Defined.

(** ** The generators at work *)

Definition counting : Source := mkSource (fun n => Z.of_nat n) 0 [].

Lemma rand_zonefile_data_text_witness :
  rand_zonefile_data (Some "example.org.") (Some "3600") counting
  = (Val (zonefile_text "example.org." "3600"), counting).
Proof.
  apply (rand_zonefile_data_text "example.org." "3600" counting).
  reflexivity.
Defined.

Lemma rand_zone_data_ignores_ttl_witness :
  rand_zone_data (Some "example.org.") None (Some 5) None counting
  = rand_zone_data (Some "example.org.") None (Some 86400) None counting.
Proof.
  apply (rand_zone_data_ignores_ttl (Some "example.org.") None None None
           counting).
Defined.

Lemma rand_recordset_data_contents_witness :
  exists d g',
    rand_recordset_data "A" "example.org." (PStr "www.example.org.")
                        (PList [PStr "10.0.0.1"]) (PInt 300) counting
    = (Val d, g') /\
    dom d = {[ "type"; "name"; "records"; "ttl" ]} /\
    d !! "type" = Some (PStr "A") /\
    d !! "name" = Some (PStr "www.example.org.") /\
    d !! "records" = Some (PList [PStr "10.0.0.1"]) /\
    d !! "ttl" = Some (PInt 300) /\
    (false = false -> false = false -> false = false -> g' = counting).
Proof.
  apply (rand_recordset_data_contents "A" "example.org."
           (PStr "www.example.org.") (PList [PStr "10.0.0.1"]) (PInt 300)
           counting).
Defined.
